(** * tdw_physics: the rigid-body episode recorder

    A shallow embedding of [tdw_physics/rigidbodies_dataset.py]: the
    [PhysicsInfo] record, the [RigidbodiesDataset] methods that build command
    batches and the per-frame writer [_write_frame], followed by the
    properties of that code.

    Conventions of the embedding.
    - Python [float]s are an abstract scalar type [F] with the operations the
      source uses ([Float64]); its instance is the kernel's binary64 floats,
      on which every definition computes.  The properties are proved for
      every instance, so they hold of binary64 with its rounding, infinities
      and NaN.
    - Python [int]s (object ids, counts) are [Z].
    - Exceptions are values: a computation returns [Ok v] or [Raise e], and a
      stateful computation returns its outcome together with the state it
      leaves behind, so mutations made before an exception stay visible.
    - The module [random] is a cursor into an arbitrary sequence of raw
      draws; every call reduces its draw into the range it has to return.
    - The parent class [TransformsDataset], the model librarian and the
      output-data decoder are not part of the file; the parent is an
      interface ([TransformsDataset]), decoded messages are an inductive
      type. *)

From Stdlib Require Import ZArith Lia List.
From Stdlib Require Import Floats.
From Stdlib Require Uint63.
From stdpp Require Import gmap strings list.

(** ** Outcomes and stateful computations *)

Inductive exn : Type := KeyError | ValueError | IndexError.

Inductive res (A : Type) : Type :=
| Ok (a : A)
| Raise (e : exn).
Arguments Ok {A} a.
Arguments Raise {A} e.

Definition res_bind {A B} (r : res A) (k : A -> res B) : res B :=
  match r with
  | Ok a => k a
  | Raise e => Raise e
  end.

(** A method that reads and writes a state [S] and may raise. *)
Definition M (S A : Type) : Type := S -> res A * S.

Definition ret {S A} (a : A) : M S A := fun s => (Ok a, s).

Definition raise {S A} (e : exn) : M S A := fun s => (Raise e, s).

Definition bind {S A B} (m : M S A) (k : A -> M S B) : M S B :=
  fun s =>
    match m s with
    | (Ok a, s') => k a s'
    | (Raise e, s') => (Raise e, s')
    end.

Definition lift {S A} (r : res A) : M S A := fun s => (r, s).

Declare Scope py_scope.
Delimit Scope py_scope with py.
Notation "'let*' x ':=' m 'in' k" := (bind m (fun x => k))
  (at level 10, x pattern, m at level 100, k at level 200) : py_scope.
Notation "'let?' x ':=' m 'in' k" := (res_bind m (fun x => k))
  (at level 10, x pattern, m at level 100, k at level 200) : py_scope.
Local Open Scope py_scope.

(** ** Scalars *)

Class Float64 (F : Type) : Type := {
  of_int : Z -> F;
  fadd : F -> F -> F;
  fsub : F -> F -> F;
  fmul : F -> F -> F;
  fdiv : F -> F -> F;
  fsqrt : F -> F;
  fltb : F -> F -> bool;
  fleb : F -> F -> bool
}.

Infix "⊕" := fadd (at level 50, left associativity) : py_scope.
Infix "⊖" := fsub (at level 50, left associativity) : py_scope.
Infix "⊗" := fmul (at level 40, left associativity) : py_scope.
Infix "⊘" := fdiv (at level 40, left associativity) : py_scope.
Infix "≺" := fltb (at level 70, no associativity) : py_scope.
Infix "≼" := fleb (at level 70, no associativity) : py_scope.

(** A decimal literal [n/d] of the source, e.g. [0.125] is [lit 1 8] and
    [0.7] is [lit 7 10]; on binary64 the correctly rounded quotient is the
    value the Python literal denotes. *)
Definition lit `{Float64 F} (n d : Z) : F := of_int n ⊘ of_int d.

(** The order facts about [<] that the strictness of the mass filter needs. *)
Class Float64Order (F : Type) `{Float64 F} : Prop := {
  fltb_irrefl : forall x : F, (x ≺ x) = false
}.

Definition float_of_Z (z : Z) : float :=
  match z with
  | Zneg p => PrimFloat.opp (PrimFloat.of_uint63 (Uint63.of_Z (Zpos p)))
  | _ => PrimFloat.of_uint63 (Uint63.of_Z z)
  end.

#[export] Instance float_Float64 : Float64 float := {|
  of_int := float_of_Z;
  fadd := PrimFloat.add;
  fsub := PrimFloat.sub;
  fmul := PrimFloat.mul;
  fdiv := PrimFloat.div;
  fsqrt := PrimFloat.sqrt;
  fltb := PrimFloat.ltb;
  fleb := PrimFloat.leb
|}.

(** ** Vectors *)

(** A [{"x": _, "y": _, "z": _}] dictionary of the command protocol. *)
Record vector3 (F : Type) : Type := Vector3 { x : F; y : F; z : F }.
Arguments Vector3 {F} x y z.
Arguments x {F} v.
Arguments y {F} v.
Arguments z {F} v.

(** A numpy array (or tuple) of three floats. *)
Definition array3 (F : Type) : Type := (F * F * F)%type.

Section Vectors.
Context `{Float64 F}.

(** [TDWUtils.array_to_vector3] *)
Definition array_to_vector3 (a : array3 F) : vector3 F :=
  let '(a0, a1, a2) := a in Vector3 a0 a1 a2.

(** [np.linalg.norm] of a 1-D array: the square root of [x.dot(x)]. *)
Definition norm (a : array3 F) : F :=
  let '(a0, a1, a2) := a in fsqrt (a0 ⊗ a0 ⊕ a1 ⊗ a1 ⊕ a2 ⊗ a2).

(** [a / s] and [a * s] on an array and a scalar. *)
Definition array_div (a : array3 F) (s : F) : array3 F :=
  let '(a0, a1, a2) := a in (a0 ⊘ s, a1 ⊘ s, a2 ⊘ s).

Definition array_mul (a : array3 F) (s : F) : array3 F :=
  let '(a0, a1, a2) := a in (a0 ⊗ s, a1 ⊗ s, a2 ⊗ s).

Definition array_flat (a : array3 F) : list F :=
  let '(a0, a1, a2) := a in [a0; a1; a2].
End Vectors.

(** ** The module [random] *)

Module random.
(** The generator: an arbitrary sequence of raw draws and a cursor. *)
Record state : Type := State { raw : nat -> nat; cursor : nat }.

Definition next : M state nat :=
  fun g => (Ok (raw g (cursor g)), State (raw g) (Datatypes.S (cursor g))).

(** [_randbelow(n)]: an integer in [[0, n)], for [n > 0]. *)
Definition _randbelow (n : Z) : M state Z :=
  let* r := next in ret (Z.of_nat r mod n)%Z.

(** [randrange(start, stop)] raises [ValueError] on an empty range;
    [randint(a, b)] is [randrange(a, b + 1)]. *)
Definition randrange (start stop : Z) : M state Z :=
  let width := (stop - start)%Z in
  if (0 <? width)%Z then
    let* r := _randbelow width in ret (start + r)%Z
  else raise ValueError.

Definition randint (a b : Z) : M state Z := randrange a (b + 1).

Section Floats.
Context `{Float64 F}.

(** [random()]: a 53-bit integer scaled into [[0, 1)]. *)
Definition unit_of_raw (r : nat) : F :=
  of_int (Z.of_nat r mod 2 ^ 53) ⊘ of_int (2 ^ 53).

Definition random : M state F :=
  let* r := next in ret (unit_of_raw r).

(** [uniform(a, b)] is [a + (b - a) * random()]. *)
Definition uniform (a b : F) : M state F :=
  let* u := random in ret (a ⊕ (b ⊖ a) ⊗ u).
End Floats.

Section Sequences.
Context {A : Type}.

(** [x[i], x[j] = x[j], x[i]] *)
Definition swap (i j : nat) (x : list A) : res (list A) :=
  match x !! j, x !! i with
  | Some xj, Some xi => Ok (<[j := xi]> (<[i := xj]> x))
  | _, _ => Raise IndexError
  end.

(** The loop of [shuffle]: [for i in reversed(range(1, len(x)))]. *)
Fixpoint shuffle_from (i : nat) (x : list A) : M state (list A) :=
  match i with
  | O => ret x
  | Datatypes.S i' =>
      let* j := _randbelow (Z.of_nat i + 1) in
      let* x := lift (swap i (Z.to_nat j) x) in
      shuffle_from i' x
  end.

(** [shuffle(x)], returning the list it leaves in [x]. *)
Definition shuffle (x : list A) : M state (list A) :=
  shuffle_from (length x - 1) x.

(** [choice(seq)] *)
Definition choice (seq : list A) : M state A :=
  match seq with
  | [] => raise IndexError
  | _ =>
      let* i := _randbelow (Z.of_nat (length seq)) in
      match seq !! Z.to_nat i with
      | Some a => ret a
      | None => raise IndexError
      end
  end.
End Sequences.
End random.

(** ** numpy arrays *)

Module np.
(** An array is its elements in row-major order and its shape. *)
Record ndarray (A : Type) : Type := NdArray { data : list A; shape : list nat }.
Arguments NdArray {A} data shape.
Arguments data {A} n.
Arguments shape {A} n.

Section Arrays.
Context {A : Type}.

Definition size (arr : ndarray A) : nat := length (data arr).

Definition numel (shape : list nat) : nat := foldr Nat.mul 1 shape.

(** [np.empty(shape)] for a shape with a zero dimension: no element. *)
Definition empty (shape : list nat) : ndarray A := NdArray [] shape.

(** [np.append(arr, values)] without [axis]: both are flattened and the
    result is one-dimensional. *)
Definition append (arr : ndarray A) (values : list A) : ndarray A :=
  let d := data arr ++ values in NdArray d [length d].

(** [arr.reshape(shape)] for a shape without [-1]. *)
Definition reshape (arr : ndarray A) (shape : list nat) : res (ndarray A) :=
  if decide (numel shape = size arr) then Ok (NdArray (data arr) shape)
  else Raise ValueError.

(** [arr.reshape((-1, d1, ..., dk))]: the leading dimension is inferred,
    and the call raises [ValueError] when the size is not a multiple of
    the known dimensions. *)
Definition reshape_infer (arr : ndarray A) (dims : list nat) : res (ndarray A) :=
  let known := numel dims in
  if decide (known <> 0 /\ size arr mod known = 0)
  then Ok (NdArray (data arr) (size arr / known :: dims))
  else Raise ValueError.
End Arrays.
End np.

(** ** Insertion-ordered dictionaries keyed by object id *)

Module PyDict.
Section Dict.
Context {V : Type}.

Definition t : Type := list (Z * V).

Fixpoint get (k : Z) (d : t) : option V :=
  match d with
  | [] => None
  | (k', v) :: d' => if decide (k = k') then Some v else get k d'
  end.

(** [d[k] = v]: an existing key keeps its place, a new key goes last. *)
Fixpoint set (k : Z) (v : V) (d : t) : t :=
  match d with
  | [] => [(k, v)]
  | (k', v') :: d' =>
      if decide (k = k') then (k, v) :: d' else (k', v') :: set k v d'
  end.

Definition keys (d : t) : list Z := d.*1.
End Dict.
Arguments t V : clear implicits.
End PyDict.

(** ** Decoded output data *)

Module Rigidbodies.
(** One row of a [Rigidbodies] message: what [get_id(i)],
    [get_velocity(i)], [get_angular_velocity(i)] and [get_sleeping(i)]
    return for an index [i]. *)
Record row (F : Type) : Type := Row {
  get_id : Z;
  get_velocity : array3 F;
  get_angular_velocity : array3 F;
  get_sleeping : bool
}.
Arguments Row {F}.
Arguments get_id {F}.
Arguments get_velocity {F}.
Arguments get_angular_velocity {F}.
Arguments get_sleeping {F}.
End Rigidbodies.

Module Collision.
(** A [Collision] message; [contacts] lists
    [(get_contact_normal(i), get_contact_point(i))] for
    [i < get_num_contacts()]. *)
Record t (F : Type) : Type := Make {
  get_collider_id : Z;
  get_collidee_id : Z;
  get_relative_velocity : array3 F;
  contacts : list (array3 F * array3 F)
}.
Arguments Make {F}.
Arguments get_collider_id {F}.
Arguments get_collidee_id {F}.
Arguments get_relative_velocity {F}.
Arguments contacts {F}.
End Collision.

Module EnvironmentCollision.
Record t (F : Type) : Type := Make {
  get_object_id : Z;
  contacts : list (array3 F * array3 F)
}.
Arguments Make {F}.
Arguments get_object_id {F}.
Arguments contacts {F}.
End EnvironmentCollision.

(** An element of [resp], by its [OutputData.get_data_type_id]. *)
Inductive output_data (F : Type) : Type :=
| rigi (ri : list (Rigidbodies.row F))
| coll (co : Collision.t F)
| enco (en : EnvironmentCollision.t F)
| other_data (r_id : string).
Arguments rigi {F}.
Arguments coll {F}.
Arguments enco {F}.
Arguments other_data {F}.

(** An entry of the dictionary [tr] the parent's [_write_frame] returns. *)
Record transform (F : Type) : Type := Transform {
  pos : array3 F;
  forward : array3 F;
  rot : F * F * F * F
}.
Arguments Transform {F}.
Arguments pos {F}.
Arguments forward {F}.
Arguments rot {F}.

(** ** The parent class *)

(** What [RigidbodiesDataset] uses of [TransformsDataset] and of the model
    librarian: the parent's attributes are a state of their own, which the
    parent's methods read and write. *)
Class TransformsDataset (F : Type) : Type := {
  transforms_state : Type;
  ModelRecord : Type;
  record_name : ModelRecord -> string;
  parent_command : Type;
  object_ids : transforms_state -> list Z;
  scales : transforms_state -> list F;
  set_scales : list F -> transforms_state -> transforms_state;
  colors : transforms_state -> list (array3 F);
  set_colors : list (array3 F) -> transforms_state -> transforms_state;
  get_unique_id : transforms_state -> Z * transforms_state;
  add_transforms_object :
    Z -> ModelRecord -> vector3 F -> vector3 F -> transforms_state ->
    parent_command * transforms_state;
  super_clear_static_data : transforms_state -> transforms_state;
  super_get_send_data_commands : transforms_state -> list parent_command;
  super_write_frame :
    list (output_data F) -> Z -> transforms_state ->
    gmap Z (transform F) * transforms_state
}.

(** ** Physics info *)

Module PhysicsInfo.
Record t (F : Type) `{TransformsDataset F} : Type := Make {
  record : ModelRecord;
  mass : F;
  dynamic_friction : F;
  static_friction : F;
  bounciness : F
}.
Arguments Make {F _}.
Arguments record {F _}.
Arguments mass {F _}.
Arguments dynamic_friction {F _}.
Arguments static_friction {F _}.
Arguments bounciness {F _}.
End PhysicsInfo.

(** ** The recorder *)

Section Recorder.
Context `{Float64 F} `{TransformsDataset F}.

(** The registry [PHYSICS_INFO], built once at import time from
    [data/physics_info.json]. *)
Variable PHYSICS_INFO : gmap string (PhysicsInfo.t F).

(** The command dictionaries, by their ["$type"]. *)
Inductive command : Type :=
| from_parent (c : parent_command)
| set_mass (id : Z) (mass : F)
| set_physic_material (id : Z) (dynamic_friction static_friction bounciness : F)
| apply_force_to_object (force : vector3 F) (id : Z)
| send_collisions (enter exit stay : bool) (collision_types : list string)
| send_rigidbodies (frequency : string).

(** The attributes of a [RigidbodiesDataset]: the parent's, the four
    static arrays and the per-object physics info. *)
Record RigidbodiesDataset : Type := Dataset {
  super : transforms_state;
  masses : list F;
  static_frictions : list F;
  dynamic_frictions : list F;
  bouncinesses : list F;
  physics_info : PyDict.t (PhysicsInfo.t F)
}.

Definition set_super (s : transforms_state) (self : RigidbodiesDataset) :=
  Dataset s (masses self) (static_frictions self) (dynamic_frictions self)
    (bouncinesses self) (physics_info self).

Definition clear_static_data : M RigidbodiesDataset unit :=
  fun self =>
    (Ok tt, Dataset (super_clear_static_data (super self)) [] [] [] []
              (physics_info self)).

(** [__init__], from the attributes [s] the parent's [__init__] has set. *)
Definition __init__ (s : transforms_state) : RigidbodiesDataset :=
  Dataset (super_clear_static_data s) [] [] [] [] [].

Definition add_physics_object (record : ModelRecord) (position rotation : vector3 F)
    (mass dynamic_friction static_friction bounciness : F) (o_id : option Z)
  : M RigidbodiesDataset (list command) :=
  fun self =>
    let '(o_id, s) :=
      match o_id with
      | None => get_unique_id (super self)
      | Some o => (o, super self)
      end in
    (* Get the add_object command. *)
    let '(add_object, s) := add_transforms_object o_id record position rotation s in
    let self :=
      Dataset s
        (masses self ++ [mass])
        (static_frictions self ++ [static_friction])
        (dynamic_frictions self ++ [dynamic_friction])
        (bouncinesses self ++ [bounciness])
        (* Log the physics info per object. *)
        (PyDict.set o_id
           (PhysicsInfo.Make record mass dynamic_friction static_friction bounciness)
           (physics_info self)) in
    (* Return commands to create the object. *)
    (Ok [from_parent add_object;
         set_mass o_id mass;
         set_physic_material o_id dynamic_friction static_friction bounciness],
     self).

Definition add_physics_object_default (name : string) (position rotation : vector3 F)
    (o_id : option Z) : M RigidbodiesDataset (list command) :=
  match PHYSICS_INFO !! name with
  | None => raise KeyError
  | Some info =>
      add_physics_object (PhysicsInfo.record info) position rotation
        (PhysicsInfo.mass info) (PhysicsInfo.dynamic_friction info)
        (PhysicsInfo.static_friction info) (PhysicsInfo.bounciness info) o_id
  end.

(** [self.physics_info[o_id]] *)
Definition physics_info_at (self : RigidbodiesDataset) (o_id : Z)
  : res (PhysicsInfo.t F) :=
  match PyDict.get o_id (physics_info self) with
  | Some info => Ok info
  | None => Raise KeyError
  end.

(** [[o for o in keys if self.physics_info[o].mass < mass]] *)
Fixpoint objects_below (self : RigidbodiesDataset) (keys : list Z) (mass : F)
  : res (list Z) :=
  match keys with
  | [] => Ok []
  | o :: keys =>
      let? info := physics_info_at self o in
      let? rest := objects_below self keys mass in
      Ok (if PhysicsInfo.mass info ≺ mass then o :: rest else rest)
  end.

Definition get_objects_by_mass (mass : F) (self : RigidbodiesDataset) : res (list Z) :=
  objects_below self (PyDict.keys (physics_info self)) mass.

(** [small_ids.pop(0)] *)
Definition pop0 (small_ids : list Z) : res (Z * list Z) :=
  match small_ids with
  | [] => Raise IndexError
  | o :: rest => Ok (o, rest)
  end.

(** [for j in range(10, 30): per_frame_commands.append([])] *)
Definition wait_some_frames (per_frame_commands : list (list command))
  : list (list command) :=
  foldl (fun acc (_ : nat) => acc ++ [[]]) per_frame_commands (seq 10 (30 - 10)).

(** The force applied to [o_id] (the draws and arithmetic of one turn of
    the launch loop). *)
Definition falling_force (self : RigidbodiesDataset) (o_id : Z)
  : M random.state (vector3 F) :=
  let* dx := random.uniform (lit (-1) 8) (lit 1 8) in
  let* dy := random.uniform (lit 7 10) (of_int 1) in
  let* dz := random.uniform (lit (-1) 8) (lit 1 8) in
  let force_dir := (dx, dy, dz) in
  let force_dir := array_div force_dir (norm force_dir) in
  let* info := lift (physics_info_at self o_id) in
  let min_force := PhysicsInfo.mass info ⊗ of_int 2 in
  let* info := lift (physics_info_at self o_id) in
  let max_force := PhysicsInfo.mass info ⊗ of_int 4 in
  let* magnitude := random.uniform min_force max_force in
  ret (array_to_vector3 (array_mul force_dir magnitude)).

(** [n] turns of the loop [for i in range(...)] of [get_falling_commands]. *)
Fixpoint launch (self : RigidbodiesDataset) (n : nat) (small_ids : list Z)
    (per_frame_commands : list (list command))
  : M random.state (list (list command)) :=
  match n with
  | O => ret per_frame_commands
  | Datatypes.S n' =>
      let* (o_id, small_ids) := lift (pop0 small_ids) in
      let* force := falling_force self o_id in
      let per_frame_commands :=
        per_frame_commands ++ [[apply_force_to_object force o_id]] in
      (* Wait some frames. *)
      launch self n' small_ids (wait_some_frames per_frame_commands)
  end.

Definition get_falling_commands (mass : F) (self : RigidbodiesDataset)
  : M random.state (list (list command)) :=
  (* Get a list of all small objects. *)
  let* small_ids := lift (get_objects_by_mass mass self) in
  let* small_ids := random.shuffle small_ids in
  let len := Z.of_nat (length small_ids) in
  let max_num_objects := if (len <? 8)%Z then len else 8%Z in
  let min_num_objects := (max_num_objects - 3)%Z in
  let min_num_objects := if (min_num_objects <=? 0)%Z then 1%Z else min_num_objects in
  (* Add some objects. *)
  let* count := random.randint min_num_objects max_num_objects in
  launch self (Z.to_nat count) small_ids [].

Definition _get_send_data_commands (self : RigidbodiesDataset) : list command :=
  (from_parent <$> super_get_send_data_commands (super self))
  ++ [send_collisions true false false ["obj"; "env"];
      send_rigidbodies "always"].

(** The datasets [_write_static_data] adds to the static group. *)
Definition _write_static_data (self : RigidbodiesDataset) : list (string * list F) :=
  [("mass", masses self);
   ("static_friction", static_frictions self);
   ("dynamic_friction", dynamic_frictions self);
   ("bounciness", bouncinesses self)].

(** *** The per-frame writer *)

(** The arrays [_write_frame] builds while it scans [resp].  A row of
    [velocities] that no [Rigidbodies] message has filled is [None]
    (the memory [np.empty] leaves uninitialised). *)
Record frame_arrays : Type := FrameArrays {
  velocities : list (option (array3 F));
  angular_velocities : list (option (array3 F));
  collision_ids : np.ndarray Z;
  collision_relative_velocities : np.ndarray F;
  collision_contacts : np.ndarray F;
  env_collision_ids : np.ndarray Z;
  env_collision_contacts : np.ndarray F;
  sleeping : bool
}.

(** [a[1]] *)
Definition index1 (a : array3 F) : F := let '(_, a1, _) := a in a1.

(** The first loop over a [Rigidbodies] message: fill [ri_dict] and check
    whether any object that is not in the abyss is awake. *)
Fixpoint scan_rigidbodies (tr : gmap Z (transform F)) (ri : list (Rigidbodies.row F))
    (ri_dict : gmap Z (array3 F * array3 F)) (sleeping : bool)
  : res (gmap Z (array3 F * array3 F) * bool) :=
  match ri with
  | [] => Ok (ri_dict, sleeping)
  | row :: ri =>
      let ri_dict :=
        <[Rigidbodies.get_id row :=
            (Rigidbodies.get_velocity row, Rigidbodies.get_angular_velocity row)]>
          ri_dict in
      let? sleeping :=
        if Rigidbodies.get_sleeping row then Ok sleeping
        else
          match tr !! Rigidbodies.get_id row with
          | None => Raise KeyError
          | Some t => Ok (if of_int (-1) ≼ index1 (pos t) then false else sleeping)
          end in
      scan_rigidbodies tr ri ri_dict sleeping
  end.

(** The second loop: [for o_id, i in zip(self.object_ids, range(num_objects))]. *)
Fixpoint fill_rigidbodies (ri_dict : gmap Z (array3 F * array3 F))
    (ids : list (Z * nat)) (velocities angular_velocities : list (option (array3 F)))
  : res (list (option (array3 F)) * list (option (array3 F))) :=
  match ids with
  | [] => Ok (velocities, angular_velocities)
  | (o_id, i) :: ids =>
      match ri_dict !! o_id with
      | None => Raise KeyError
      | Some entry =>
          let velocities := <[i := Some (fst entry)]> velocities in
          match ri_dict !! o_id with
          | None => Raise KeyError
          | Some entry =>
              let angular_velocities := <[i := Some (snd entry)]> angular_velocities in
              fill_rigidbodies ri_dict ids velocities angular_velocities
          end
      end
  end.

(** [for i in range(num_contacts): contacts = np.append(contacts, (normal, point))] *)
Definition append_contacts (contacts : list (array3 F * array3 F))
    (arr : np.ndarray F) : np.ndarray F :=
  foldl (fun arr c => np.append arr (array_flat (fst c) ++ array_flat (snd c)))
    arr contacts.

(** One turn of [for r in resp[:-1]]. *)
Definition write_output_data (object_ids : list Z) (tr : gmap Z (transform F))
    (a : frame_arrays) (r : output_data F) : res frame_arrays :=
  match r with
  | rigi ri =>
      let? (ri_dict, sleeping) := scan_rigidbodies tr ri ∅ (sleeping a) in
      (* Add the Rigibodies data. *)
      let? (velocities, angular_velocities) :=
        fill_rigidbodies ri_dict (zip object_ids (seq 0 (length object_ids)))
          (velocities a) (angular_velocities a) in
      Ok (FrameArrays velocities angular_velocities (collision_ids a)
            (collision_relative_velocities a) (collision_contacts a)
            (env_collision_ids a) (env_collision_contacts a) sleeping)
  | coll co =>
      Ok (FrameArrays (velocities a) (angular_velocities a)
            (np.append (collision_ids a)
               [Collision.get_collider_id co; Collision.get_collidee_id co])
            (np.append (collision_relative_velocities a)
               (array_flat (Collision.get_relative_velocity co)))
            (append_contacts (Collision.contacts co) (collision_contacts a))
            (env_collision_ids a) (env_collision_contacts a) (sleeping a))
  | enco en =>
      Ok (FrameArrays (velocities a) (angular_velocities a) (collision_ids a)
            (collision_relative_velocities a) (collision_contacts a)
            (np.append (env_collision_ids a) [EnvironmentCollision.get_object_id en])
            (append_contacts (EnvironmentCollision.contacts en)
               (env_collision_contacts a))
            (sleeping a))
  | other_data _ => Ok a
  end.

Fixpoint write_all (object_ids : list Z) (tr : gmap Z (transform F))
    (a : frame_arrays) (resp : list (output_data F)) : res frame_arrays :=
  match resp with
  | [] => Ok a
  | r :: resp =>
      let? a := write_output_data object_ids tr a r in
      write_all object_ids tr a resp
  end.

(** The datasets [_write_frame] creates, by their path in the frame group. *)
Record frame_datasets : Type := FrameDatasets {
  objs_velocities : list (option (array3 F));
  objs_angular_velocities : list (option (array3 F));
  collisions_object_ids : np.ndarray Z;
  collisions_relative_velocities : np.ndarray F;
  collisions_contacts : np.ndarray F;
  env_collisions_object_ids : np.ndarray Z;
  env_collisions_contacts : np.ndarray F
}.

Definition initial_arrays (num_objects : nat) : frame_arrays :=
  FrameArrays (replicate num_objects None) (replicate num_objects None)
    (np.empty [0; 2]) (np.empty [0; 3]) (np.empty [0; 2; 3])
    (np.empty [0; 1]) (np.empty [0; 2; 3]) true.

(** The datasets, from the arrays the loop has left. *)
Definition create_datasets (a : frame_arrays) : res frame_datasets :=
  let? ids := np.reshape_infer (collision_ids a) [2] in
  let? relative_velocities :=
    np.reshape_infer (collision_relative_velocities a) [3] in
  let? contacts := np.reshape_infer (collision_contacts a) [2; 3] in
  let? env_contacts := np.reshape_infer (env_collision_contacts a) [2; 3] in
  Ok (FrameDatasets (velocities a) (angular_velocities a) ids relative_velocities
        contacts (env_collision_ids a) env_contacts).

(** [_write_frame]: the datasets written, the parent's [tr] and the
    episode-done flag. *)
Definition _write_frame (resp : list (output_data F)) (frame_num : Z)
  : M RigidbodiesDataset (frame_datasets * gmap Z (transform F) * bool) :=
  fun self =>
    let '(tr, s) := super_write_frame resp frame_num (super self) in
    let self := set_super s self in
    let num_objects := length (object_ids (super self)) in
    let result :=
      let? a := write_all (object_ids (super self)) tr (initial_arrays num_objects)
                  (removelast resp) in
      let? datasets := create_datasets a in
      Ok (datasets, tr, sleeping a) in
    (result, self).

(** *** Random primitives *)

(** A method that uses both the recorder and the module [random]. *)
Record world : Type := World { this : RigidbodiesDataset; rand : random.state }.

Definition on_this {A} (m : M RigidbodiesDataset A) : M world A :=
  fun w => let '(r, self) := m (this w) in (r, World self (rand w)).

Definition on_random {A} (m : M random.state A) : M world A :=
  fun w => let '(r, g) := m (rand w) in (r, World (this w) g).

Definition random_color : M random.state (list F) :=
  let* r := random.random in
  let* g := random.random in
  let* b := random.random in
  ret [r; g; b].

Record obj_data : Type := ObjData {
  obj_id : Z;
  obj_scale : F;
  obj_color : list F;
  obj_name : string
}.

(** [seq[i]] *)
Definition item {A} (seq : list A) (i : nat) : res A :=
  match seq !! i with
  | Some a => Ok a
  | None => Raise IndexError
  end.

Definition random_primitive (object_types : list ModelRecord) (scale : list F)
    (color : option (list F)) : M world (ModelRecord * obj_data) :=
  let* obj_record := on_random (random.choice object_types) in
  let* id := on_this (fun self =>
               let '(id, s) := get_unique_id (super self) in (Ok id, set_super s self)) in
  let* scale0 := lift (item scale 0) in
  let* scale1 := lift (item scale 1) in
  let* scale := on_random (random.uniform scale0 scale1) in
  let* color :=
    match color with
    | Some (c :: cs) => ret (c :: cs)
    | _ => on_random random_color
    end in
  let data := ObjData id scale color (record_name obj_record) in
  let* _ := on_this (fun self =>
              (Ok tt, set_super (set_scales (scales (super self) ++ [scale]) (super self)) self)) in
  let* row := lift (match color with
                    | [r; g; b] => Ok (r, g, b)
                    | _ => Raise ValueError
                    end) in
  let* _ := on_this (fun self =>
              (Ok tt, set_super (set_colors (colors (super self) ++ [row]) (super self)) self)) in
  ret (obj_record, data).

(** *** Episodes as sequences of calls *)

Inductive call : Type :=
| call_clear_static_data
| call_random_primitive (object_types : list ModelRecord) (scale : list F)
    (color : option (list F))
| call_add_physics_object (record : ModelRecord) (position rotation : vector3 F)
    (mass dynamic_friction static_friction bounciness : F) (o_id : option Z)
| call_add_physics_object_default (name : string) (position rotation : vector3 F)
    (o_id : option Z)
| call_get_objects_by_mass (mass : F)
| call_get_falling_commands (mass : F)
| call_get_send_data_commands
| call_write_static_data
| call_write_frame (resp : list (output_data F)) (frame_num : Z).

(** The state a call leaves behind, whether it returns or raises. *)
Definition step (w : world) (c : call) : world :=
  match c with
  | call_clear_static_data => snd (on_this clear_static_data w)
  | call_random_primitive object_types scale color =>
      snd (random_primitive object_types scale color w)
  | call_add_physics_object record position rotation mass dynamic_friction
      static_friction bounciness o_id =>
      snd (on_this (add_physics_object record position rotation mass
                      dynamic_friction static_friction bounciness o_id) w)
  | call_add_physics_object_default name position rotation o_id =>
      snd (on_this (add_physics_object_default name position rotation o_id) w)
  | call_get_objects_by_mass mass => w
  | call_get_falling_commands mass =>
      snd (on_random (get_falling_commands mass (this w)) w)
  | call_get_send_data_commands => w
  | call_write_static_data => w
  | call_write_frame resp frame_num => snd (on_this (_write_frame resp frame_num) w)
  end.

Definition run (w : world) (calls : list call) : world := foldl step w calls.

(** The scalars [(mass, static, dynamic, bounciness)] a call appends to the
    static arrays, if it appends. *)
Definition added (c : call) : option (F * F * F * F) :=
  match c with
  | call_add_physics_object _ _ _ mass dynamic_friction static_friction bounciness _ =>
      Some (mass, static_friction, dynamic_friction, bounciness)
  | call_add_physics_object_default name _ _ _ =>
      info ← PHYSICS_INFO !! name;
      Some (PhysicsInfo.mass info, PhysicsInfo.static_friction info,
            PhysicsInfo.dynamic_friction info, PhysicsInfo.bounciness info)
  | _ => None
  end.

(** The rows added since the last [clear_static_data], oldest first, on
    top of the rows [acc] that were there at the start. *)
Definition added_since_clear (acc : list (F * F * F * F)) (calls : list call)
  : list (F * F * F * F) :=
  foldl (fun acc c =>
           match c with
           | call_clear_static_data => []
           | _ => match added c with Some row => acc ++ [row] | None => acc end
           end) acc calls.
(** *** Vocabulary of the properties *)

(** [o] is recorded with a mass strictly below [mass]. *)
Definition is_below (self : RigidbodiesDataset) (mass : F) (o : Z) : bool :=
  match PyDict.get o (physics_info self) with
  | Some info => PhysicsInfo.mass info ≺ mass
  | None => false
  end.

(** What one launch contributes to the per-frame command lists: the list
    holding the apply-force command, then [waits] empty lists. *)
Definition launch_block (waits : nat) (launched : vector3 F * Z) : list (list command) :=
  [apply_force_to_object launched.1 launched.2] :: replicate waits [].

Definition launch_blocks (waits : nat) (launched : list (vector3 F * Z))
  : list (list command) :=
  concat (launch_block waits <$> launched).

(** The rows of the [Rigidbodies] messages of a response, and its
    [Collision] and [EnvironmentCollision] messages, in order. *)
Definition rigidbodies_in (resp : list (output_data F)) : list (Rigidbodies.row F) :=
  resp ≫= fun r => match r with rigi ri => ri | _ => [] end.

Definition collisions_in (resp : list (output_data F)) : list (Collision.t F) :=
  resp ≫= fun r => match r with coll co => [co] | _ => [] end.

Definition env_collisions_in (resp : list (output_data F))
  : list (EnvironmentCollision.t F) :=
  resp ≫= fun r => match r with enco en => [en] | _ => [] end.

(** Contact (normal, point) pairs, flattened: six floats per contact. *)
Definition flat_contacts (contacts : list (array3 F * array3 F)) : list F :=
  contacts ≫= fun c => array_flat c.1 ++ array_flat c.2.

(** A row reports awake an object that [tr] places at a height of at
    least -1. *)
Definition awake_in_scene (tr : gmap Z (transform F)) (row : Rigidbodies.row F) : bool :=
  negb (Rigidbodies.get_sleeping row)
  && match tr !! Rigidbodies.get_id row with
     | Some t => of_int (-1) ≼ index1 (pos t)
     | None => false
     end.

(** The condition the specification states for the episode-done flag:
    every tracked object (an id of [self.object_ids]) whose last known
    height is at least -1 is reported asleep by a [Rigidbodies] message of
    the response. *)
Definition every_tracked_object_asleep (ids : list Z) (tr : gmap Z (transform F))
    (resp : list (output_data F)) : Prop :=
  forall o t,
    o ∈ ids -> tr !! o = Some t -> (of_int (-1) ≼ index1 (pos t)) = true ->
    exists row, row ∈ rigidbodies_in resp
                /\ Rigidbodies.get_id row = o
                /\ Rigidbodies.get_sleeping row = true.

(** The rows a single call appends. *)
Definition rows_of (c : call) : list (F * F * F * F) :=
  match added c with Some row => [row] | None => [] end.

(** The four static arrays and the physics info of two recorders agree. *)
Definition same_static (self self' : RigidbodiesDataset) : Prop :=
  masses self' = masses self
  /\ static_frictions self' = static_frictions self
  /\ dynamic_frictions self' = dynamic_frictions self
  /\ bouncinesses self' = bouncinesses self
  /\ physics_info self' = physics_info self.

(** A method of the recorder that leaves them alone. *)
Definition preserves_static {A} (m : M world A) : Prop :=
  forall w, same_static (this w) (this (snd (m w))).
End Recorder.

(** ** A parent class and a registry for concrete runs *)

Module Example.
Section Parent.
Context {F : Type}.

(** A minimal [TransformsDataset]: it tracks the ids of the objects
    added, hands out consecutive unique ids and returns, as [tr], the
    transforms it was given. *)
Record parent : Type := Parent {
  ids : list Z;
  parent_scales : list F;
  parent_colors : list (array3 F);
  next_id : Z;
  last_tr : gmap Z (transform F)
}.

#[export] Instance transforms_dataset : TransformsDataset F := {|
  transforms_state := parent;
  ModelRecord := string;
  record_name := fun r => r;
  parent_command := (Z * string)%type;
  object_ids := ids;
  scales := parent_scales;
  set_scales := fun l s => Parent (ids s) l (parent_colors s) (next_id s) (last_tr s);
  colors := parent_colors;
  set_colors := fun l s => Parent (ids s) (parent_scales s) l (next_id s) (last_tr s);
  get_unique_id := fun s =>
    (next_id s,
     Parent (ids s) (parent_scales s) (parent_colors s) (next_id s + 1) (last_tr s));
  add_transforms_object := fun o record _ _ s =>
    ((o, record),
     Parent (ids s ++ [o]) (parent_scales s) (parent_colors s) (next_id s) (last_tr s));
  super_clear_static_data := fun s => Parent [] [] [] (next_id s) (last_tr s);
  super_get_send_data_commands := fun _ => [];
  super_write_frame := fun _ _ s => (last_tr s, s)
|}.

Definition fresh_parent : parent := Parent [] [] [] 0 ∅.

(** A parent that tracks [ids] and last saw each object of [ys] at the
    height paired with it. *)
Definition parent_at `{Float64 F} (ids : list Z) (ys : list (Z * F)) : parent :=
  Parent ids [] [] 0
    (list_to_map
       ((fun p : Z * F =>
           (p.1, Transform (of_int 0, p.2, of_int 0)
                   (of_int 0, of_int 0, of_int 1)
                   (of_int 0, of_int 0, of_int 0, of_int 1))) <$> ys)).
End Parent.

Section Registry.
Context `{Float64 F}.

(** The registry of the specification's example:
    [{"chair": {library: "lib0", name: "chair_01", mass: 5,
    dynamic_friction: 0.3, static_friction: 0.4, bounciness: 0.2}}]. *)
Definition chair : PhysicsInfo.t F :=
  PhysicsInfo.Make ("chair_01" : ModelRecord) (of_int 5) (lit 3 10) (lit 4 10) (lit 2 10).

Definition registry : gmap string (PhysicsInfo.t F) := {[ "chair" := chair ]}.

Definition origin : vector3 F := Vector3 (of_int 0) (of_int 0) (of_int 0).

(** The generator whose raw draws are those of [draws], then zeros. *)
Definition draws_of (draws : list nat) : random.state :=
  random.State (fun i => nth i draws 0) 0.

(** A recorder holding one object per mass of [ms], with ids [1, 2, ...]. *)
Definition recorder_with (ms : list F) : RigidbodiesDataset :=
  foldl (fun self m =>
           snd (add_physics_object ("cube" : ModelRecord) origin origin m
                  (lit 3 10) (lit 4 10) (lit 2 10)
                  (Some (Z.of_nat (length (masses self)) + 1)%Z) self))
    (__init__ fresh_parent) ms.
End Registry.

Section Frames.
Context `{Float64 F}.

Definition still : array3 F := (of_int 0, of_int 0, of_int 0).

(** A row for an object at rest. *)
Definition row (id : Z) (asleep : bool) : Rigidbodies.row F :=
  Rigidbodies.Row id still still asleep.

(** The last element of every response (the frame count); [_write_frame]
    skips it. *)
Definition frame_marker : output_data F := other_data "fram".

(** A recorder that tracks [ids], whose parent last saw the objects of
    [ys] at the heights paired with them. *)
Definition recorder_tracking (ids : list Z) (ys : list (Z * F)) : RigidbodiesDataset :=
  Dataset (parent_at ids ys) [] [] [] [] [].

(** Object 1 asleep. *)
Definition frame_asleep : list (output_data F) :=
  [rigi [row 1 true]; frame_marker].

(** Object 1 asleep and an object 2, which the recorder may not track,
    awake. *)
Definition frame_with_stranger : list (output_data F) :=
  [rigi [row 1 true; row 2 false]; frame_marker].

(** No [Rigidbodies] message. *)
Definition frame_without_rigidbodies : list (output_data F) := [frame_marker].

(** One collision, between objects 1 and 2, with two contacts. *)
Definition frame_two_contacts : list (output_data F) :=
  [coll (Collision.Make 1 2 still [(still, still); (still, still)]); frame_marker].
End Frames.
End Example.

(** ** The rest of the package *)

Section MoreVocabulary.
Context `{Float64 F} `{TransformsDataset F}.

(** The ids of the objects the commands of a sequence apply a force to, in
    the order of the sequence. *)
Definition forced_ids (per_frame_commands : list (list command)) : list Z :=
  concat per_frame_commands ≫= fun c =>
    match c with
    | apply_force_to_object _ o => [o]
    | _ => []
    end.

(** [scales] and [colors] are attributes of the parent: reading one returns
    what was last assigned to it, and assigning one leaves the other alone. *)
Definition scales_and_colors_are_attributes : Prop :=
  (forall l s, scales (set_scales l s) = l)
  /\ (forall l s, colors (set_colors l s) = l)
  /\ (forall l s, scales (set_colors l s) = scales s)
  /\ (forall l s, colors (set_scales l s) = colors s)
  /\ (forall s, scales (snd (get_unique_id s)) = scales s)
  /\ (forall s, colors (snd (get_unique_id s)) = colors s).

End MoreVocabulary.



(** *** The default physics info *)

(** An entry of [data/physics_info.json], taken to have its six keys. *)
Record physics_info_entry (F : Type) : Type := PhysicsInfoEntry {
  entry_library : string;
  entry_name : string;
  entry_mass : F;
  entry_bounciness : F;
  entry_dynamic_friction : F;
  entry_static_friction : F
}.
Arguments PhysicsInfoEntry {F}.
Arguments entry_library {F}.
Arguments entry_name {F}.
Arguments entry_mass {F}.
Arguments entry_bounciness {F}.
Arguments entry_dynamic_friction {F}.
Arguments entry_static_friction {F}.

Section DefaultPhysicsInfo.
Context `{TransformsDataset F}.

(** [MODEL_LIBRARIES]: for each library file name, the [get_record] of its
    librarian.  What a librarian returns for a name it does not know is a
    [ModelRecord] like any other here: the loader stores it unexamined. *)
Variable MODEL_LIBRARIES : gmap string (string -> ModelRecord).

(** [d[key] = obj] while [json.load] builds its dictionary: a key that is
    there keeps its place and takes the new value, a new key goes last. *)
Fixpoint json_object_set (key : string) (obj : physics_info_entry F)
    (d : list (string * physics_info_entry F)) : list (string * physics_info_entry F) :=
  match d with
  | [] => [(key, obj)]
  | (key', obj') :: d' =>
      if decide (key = key') then (key, obj) :: d'
      else (key', obj') :: json_object_set key obj d'
  end.

(** [json.load(f)]: the dictionary of the members of the file's object, read
    in order.  Of the members that repeat a key only the last gives the
    value; the others are shadowed. *)
Definition json_load (members : list (string * physics_info_entry F))
  : list (string * physics_info_entry F) :=
  foldl (fun d member => json_object_set member.1 member.2 d) [] members.

(** The loop [for key in _data], with [obj = _data[key]], over the items of
    the dictionary, in order. *)
Fixpoint load_physics_info (items : list (string * physics_info_entry F))
    (info : gmap string (PhysicsInfo.t F)) : res (gmap string (PhysicsInfo.t F)) :=
  match items with
  | [] => Ok info
  | (key, obj) :: items =>
      match MODEL_LIBRARIES !! entry_library obj with
      | None => Raise KeyError
      | Some get_record =>
          load_physics_info items
            (<[key := PhysicsInfo.Make (get_record (entry_name obj)) (entry_mass obj)
                        (entry_dynamic_friction obj) (entry_static_friction obj)
                        (entry_bounciness obj)]> info)
      end
  end.

(** [file] lists the members of [data/physics_info.json]. *)
Definition _get_default_physics_info (file : list (string * physics_info_entry F))
  : res (gmap string (PhysicsInfo.t F)) :=
  let _data := json_load file in
  load_physics_info _data ∅.
End DefaultPhysicsInfo.

(** *** [tdw_physics/util.py] *)

Module util.
(** The command dictionaries of [util.py], by their ["$type"]. *)
Inductive command (F : Type) : Type :=
| object_look_at_position (id : Z) (position : vector3 F)
| rotate_object_by (angle : F) (axis : string) (id : Z) (is_world : bool).
Arguments object_look_at_position {F}.
Arguments rotate_object_by {F}.

Section Util.
Context `{Float64 F}.


End Util.
End util.

(** * Properties *)

(** ** Dictionaries *)

Section DictFacts.
Context {V : Type}.
Implicit Types (d : PyDict.t V) (k : Z) (v : V).

Lemma dict_get_set_eq k v d : PyDict.get k (PyDict.set k v d) = Some v.
Proof.
  induction d as [|[k' v'] d IH]; simpl.
  - by rewrite decide_True.
  - destruct (decide (k = k')) as [->|Hne]; simpl.
    + by rewrite decide_True.
    + by rewrite decide_False.
Qed.

Lemma dict_get_set_ne k k' v d :
  k <> k' -> PyDict.get k' (PyDict.set k v d) = PyDict.get k' d.
Proof.
  intros Hne. induction d as [|[k0 v0] d IH]; simpl.
  - rewrite decide_False; [done | congruence].
  - destruct (decide (k = k0)) as [->|Hne0]; simpl.
    + rewrite !decide_False; [done | congruence | congruence].
    + destruct (decide (k' = k0)); [done | apply IH].
Qed.

Lemma dict_get_keys k d : k ∈ PyDict.keys d <-> is_Some (PyDict.get k d).
Proof.
  unfold PyDict.keys. induction d as [|[k' v'] d IH]; simpl.
  - split; [by intros ?%elem_of_nil | by intros [? ?]].
  - rewrite elem_of_cons, IH. destruct (decide (k = k')) as [->|Hne].
    + split; [by eauto | by left].
    + split; [by intros [?|?] | by right].
Qed.
End DictFacts.

(** ** Adding objects *)

Section AddingObjects.
Context `{Float64 F} `{TransformsDataset F}.
Variable PHYSICS_INFO : gmap string (PhysicsInfo.t F).

Implicit Types (self : RigidbodiesDataset) (w : world).

(** C4.  [add_physics_object] returns the three commands add-object,
    set-mass, set-physic-material, in this order, for the id it was given
    (or a fresh one), and appends the mass, the dynamic friction, the static
    friction and the bounciness it was given to the ends of [masses],
    [dynamic_frictions], [static_frictions] and [bouncinesses]; the object's
    physics info is recorded under its id. *)
Theorem add_physics_object_batch (record : ModelRecord) (position rotation : vector3 F)
    (mass dynamic_friction static_friction bounciness : F) (o_id : option Z) self :
  let '(o, s) :=
    match o_id with
    | None => get_unique_id (super self)
    | Some o => (o, super self)
    end in
  let '(add_object, s') := add_transforms_object o record position rotation s in
  exists self',
    add_physics_object record position rotation mass dynamic_friction static_friction
      bounciness o_id self
    = (Ok [from_parent add_object;
           set_mass o mass;
           set_physic_material o dynamic_friction static_friction bounciness],
       self')
    /\ length [from_parent add_object;
               set_mass o mass;
               set_physic_material o dynamic_friction static_friction bounciness] = 3
    /\ super self' = s'
    /\ masses self' = masses self ++ [mass]
    /\ dynamic_frictions self' = dynamic_frictions self ++ [dynamic_friction]
    /\ static_frictions self' = static_frictions self ++ [static_friction]
    /\ bouncinesses self' = bouncinesses self ++ [bounciness]
    /\ length (masses self') = Datatypes.S (length (masses self))
    /\ length (dynamic_frictions self') = Datatypes.S (length (dynamic_frictions self))
    /\ length (static_frictions self') = Datatypes.S (length (static_frictions self))
    /\ length (bouncinesses self') = Datatypes.S (length (bouncinesses self))
    /\ PyDict.get o (physics_info self')
       = Some (PhysicsInfo.Make record mass dynamic_friction static_friction bounciness).
Proof.
  unfold add_physics_object.
  destruct (match o_id with
            | None => get_unique_id (super self)
            | Some o => (o, super self)
            end) as [o s].
  destruct (add_transforms_object o record position rotation s) as [add_object s'].
  eexists. split; [reflexivity|]. simpl.
  rewrite !length_app, dict_get_set_eq. simpl.
  repeat split; lia.
Qed.

(** C5.  For a name the registry knows, [add_physics_object_default]
    returns the command batch, and leaves the recorder in the state, of
    [add_physics_object] called with the record, mass, dynamic friction,
    static friction and bounciness of the registry entry. *)
Theorem add_physics_object_default_resolves (name : string) (info : PhysicsInfo.t F)
    (position rotation : vector3 F) (o_id : option Z) self :
  PHYSICS_INFO !! name = Some info ->
  add_physics_object_default PHYSICS_INFO name position rotation o_id self
  = add_physics_object (PhysicsInfo.record info) position rotation
      (PhysicsInfo.mass info) (PhysicsInfo.dynamic_friction info)
      (PhysicsInfo.static_friction info) (PhysicsInfo.bounciness info) o_id self.
Proof.
  intros Hinfo. unfold add_physics_object_default. by rewrite Hinfo.
Qed.

Lemma add_physics_object_returns (record : ModelRecord) (position rotation : vector3 F)
    (mass dynamic_friction static_friction bounciness : F) (o_id : option Z) self :
  exists cmds self',
    add_physics_object record position rotation mass dynamic_friction static_friction
      bounciness o_id self = (Ok cmds, self').
Proof.
  unfold add_physics_object.
  destruct (match o_id with
            | None => get_unique_id (super self)
            | Some o => (o, super self)
            end) as [o s].
  destruct (add_transforms_object o record position rotation s) as [add_object s'].
  eauto.
Qed.

(** C6.  [add_physics_object_default] raises [KeyError] exactly when the
    name is not in the registry, and then the recorder (its static arrays
    and its physics-info dictionary included) is as it was before the
    call. *)
Theorem add_physics_object_default_unknown (name : string)
    (position rotation : vector3 F) (o_id : option Z) self :
  let result := add_physics_object_default PHYSICS_INFO name position rotation o_id self in
  (fst result = Raise KeyError <-> PHYSICS_INFO !! name = None)
  /\ (fst result = Raise KeyError ->
      snd result = self
      /\ masses (snd result) = masses self
      /\ static_frictions (snd result) = static_frictions self
      /\ dynamic_frictions (snd result) = dynamic_frictions self
      /\ bouncinesses (snd result) = bouncinesses self
      /\ physics_info (snd result) = physics_info self).
Proof.
  simpl. unfold add_physics_object_default.
  destruct (PHYSICS_INFO !! name) as [info|] eqn:Hinfo.
  - destruct (add_physics_object_returns (PhysicsInfo.record info) position rotation
                (PhysicsInfo.mass info) (PhysicsInfo.dynamic_friction info)
                (PhysicsInfo.static_friction info) (PhysicsInfo.bounciness info)
                o_id self) as (cmds & self' & ->).
    simpl. split; [split|]; intros; discriminate.
  - simpl. repeat split; trivial.
Qed.
End AddingObjects.

(** ** The static arrays over an episode *)

Section StaticArrays.
Context `{Float64 F} `{TransformsDataset F}.
Variable PHYSICS_INFO : gmap string (PhysicsInfo.t F).

Implicit Types (self : RigidbodiesDataset) (w : world) (c : call)
  (rows : list (F * F * F * F)).

Lemma same_static_refl self : same_static self self.
Proof. by repeat split. Qed.

Lemma same_static_trans self1 self2 self3 :
  same_static self1 self2 -> same_static self2 self3 -> same_static self1 self3.
Proof.
  intros (?&?&?&?&?) (?&?&?&?&?). repeat split; congruence.
Qed.

Lemma preserves_ret {A} (a : A) : preserves_static (ret a).
Proof. intros w. apply same_static_refl. Qed.

Lemma preserves_lift {A} (r : res A) : preserves_static (lift r).
Proof. intros w. apply same_static_refl. Qed.

Lemma preserves_bind {A B} (m : M world A) (k : A -> M world B) :
  preserves_static m -> (forall a, preserves_static (k a)) ->
  preserves_static (bind m k).
Proof.
  intros Hm Hk w. unfold bind. specialize (Hm w).
  destruct (m w) as [[a|e] w']; simpl in *; [|done].
  eapply same_static_trans; [exact Hm | apply Hk].
Qed.

Lemma preserves_on_random {A} (m : M random.state A) :
  preserves_static (on_random m).
Proof.
  intros w. unfold on_random. destruct (m (rand w)). apply same_static_refl.
Qed.

Lemma preserves_on_super {A} (f : RigidbodiesDataset -> res A * transforms_state) :
  preserves_static
    (on_this (fun self => let '(r, s) := f self in (r, set_super s self))).
Proof.
  intros w. unfold on_this. destruct (f (this w)). by repeat split.
Qed.

Lemma random_primitive_static object_types scale color :
  preserves_static (random_primitive object_types scale color).
Proof.
  unfold random_primitive.
  apply preserves_bind; [apply preserves_on_random | intros obj_record].
  apply preserves_bind.
  { intros w. unfold on_this. destruct (get_unique_id (super (this w))).
    by repeat split. }
  intros id.
  apply preserves_bind; [apply preserves_lift | intros scale0].
  apply preserves_bind; [apply preserves_lift | intros scale1].
  apply preserves_bind; [apply preserves_on_random | intros sc].
  apply preserves_bind.
  { destruct color as [[|? ?]|];
      [apply preserves_on_random | apply preserves_ret | apply preserves_on_random]. }
  intros col.
  apply preserves_bind.
  { apply (preserves_on_super
             (fun self => (Ok tt, set_scales (scales (super self) ++ [sc]) (super self)))). }
  intros _.
  apply preserves_bind; [apply preserves_lift | intros row].
  apply preserves_bind; [|intros _; apply preserves_ret].
  apply (preserves_on_super
           (fun self => (Ok tt, set_colors (colors (super self) ++ [row]) (super self)))).
Qed.

Lemma write_frame_static resp frame_num self :
  same_static self (snd (_write_frame resp frame_num self)).
Proof.
  unfold _write_frame. destruct (super_write_frame resp frame_num (super self)).
  by repeat split.
Qed.

Lemma add_physics_object_static (record : ModelRecord) (position rotation : vector3 F)
    (mass dynamic_friction static_friction bounciness : F) (o_id : option Z) self :
  let self' := snd (add_physics_object record position rotation mass dynamic_friction
                      static_friction bounciness o_id self) in
  masses self' = masses self ++ [mass]
  /\ static_frictions self' = static_frictions self ++ [static_friction]
  /\ dynamic_frictions self' = dynamic_frictions self ++ [dynamic_friction]
  /\ bouncinesses self' = bouncinesses self ++ [bounciness].
Proof.
  unfold add_physics_object.
  destruct (match o_id with
            | None => get_unique_id (super self)
            | Some o => (o, super self)
            end) as [o s].
  destruct (add_transforms_object o record position rotation s) as [add_object s'].
  by repeat split.
Qed.

Lemma step_static w c :
  let self' := this (step PHYSICS_INFO w c) in
  match c with
  | call_clear_static_data =>
      masses self' = [] /\ static_frictions self' = []
      /\ dynamic_frictions self' = [] /\ bouncinesses self' = []
  | _ =>
      masses self' = masses (this w) ++ (rows_of PHYSICS_INFO c).*1.*1.*1
      /\ static_frictions self' = static_frictions (this w) ++ (rows_of PHYSICS_INFO c).*1.*1.*2
      /\ dynamic_frictions self' = dynamic_frictions (this w) ++ (rows_of PHYSICS_INFO c).*1.*2
      /\ bouncinesses self' = bouncinesses (this w) ++ (rows_of PHYSICS_INFO c).*2
  end.
Proof.
  destruct c; simpl; unfold rows_of; simpl; rewrite ?app_nil_r.
  - done.
  - destruct (random_primitive_static object_types scale color w) as (?&?&?&?&?).
    done.
  - unfold on_this.
    pose proof (add_physics_object_static record position rotation mass
                  dynamic_friction static_friction bounciness o_id (this w)) as Hadd.
    destruct (add_physics_object _ _ _ _ _ _ _ _ _) as [r self']. exact Hadd.
  - unfold on_this, add_physics_object_default.
    destruct (PHYSICS_INFO !! name) as [info|]; simpl; rewrite ?app_nil_r; [|done].
    pose proof (add_physics_object_static (PhysicsInfo.record info) position rotation
                  (PhysicsInfo.mass info) (PhysicsInfo.dynamic_friction info)
                  (PhysicsInfo.static_friction info) (PhysicsInfo.bounciness info)
                  o_id (this w)) as Hadd.
    destruct (add_physics_object _ _ _ _ _ _ _ _ _) as [r self']. exact Hadd.
  - done.
  - unfold on_random. by destruct (get_falling_commands mass (this w) (rand w)).
  - done.
  - done.
  - unfold on_this.
    pose proof (write_frame_static resp frame_num (this w)) as (?&?&?&?&?).
    by destruct (_write_frame resp frame_num (this w)).
Qed.

Lemma run_static w calls rows :
  masses (this w) = rows.*1.*1.*1 ->
  static_frictions (this w) = rows.*1.*1.*2 ->
  dynamic_frictions (this w) = rows.*1.*2 ->
  bouncinesses (this w) = rows.*2 ->
  let self' := this (run PHYSICS_INFO w calls) in
  let rows' := added_since_clear PHYSICS_INFO rows calls in
  masses self' = rows'.*1.*1.*1
  /\ static_frictions self' = rows'.*1.*1.*2
  /\ dynamic_frictions self' = rows'.*1.*2
  /\ bouncinesses self' = rows'.*2.
Proof.
  revert w rows. induction calls as [|c calls IH]; intros w rows Hm Hs Hd Hb.
  - done.
  - simpl. unfold run, added_since_clear in *. simpl.
    pose proof (step_static w c) as Hstep. simpl in Hstep.
    apply IH; unfold rows_of in Hstep;
      destruct c; simpl in *;
      repeat match goal with
             | |- context [PHYSICS_INFO !! ?n] => destruct (PHYSICS_INFO !! n); simpl in *
             | H : _ /\ _ |- _ => destruct H
             end;
      rewrite ?fmap_app, ?app_nil_r in *; simpl; congruence.
Qed.

(** C8.  From a new recorder, after any sequence of calls of its methods,
    [masses], [static_frictions], [dynamic_frictions] and [bouncinesses]
    hold, in the order of the calls, the scalars of the objects added
    since the last [clear_static_data]: the four have the length of that
    list and the same index refers to the same object.  A call other than
    [clear_static_data] keeps every element where it was and only appends:
    one element to each array when it adds an object, none otherwise. *)
Theorem static_arrays_parallel (s : transforms_state) (g : random.state) calls :
  let self' := this (run PHYSICS_INFO (World (__init__ s) g) calls) in
  let rows := added_since_clear PHYSICS_INFO [] calls in
  (masses self' = rows.*1.*1.*1
   /\ static_frictions self' = rows.*1.*1.*2
   /\ dynamic_frictions self' = rows.*1.*2
   /\ bouncinesses self' = rows.*2)
  /\ (length (masses self') = length rows
      /\ length (static_frictions self') = length rows
      /\ length (dynamic_frictions self') = length rows
      /\ length (bouncinesses self') = length rows)
  /\ forall w c,
      let after := this (step PHYSICS_INFO w c) in
      match c with
      | call_clear_static_data =>
          masses after = [] /\ static_frictions after = []
          /\ dynamic_frictions after = [] /\ bouncinesses after = []
      | _ =>
          (length (rows_of PHYSICS_INFO c) <= 1)%nat
          /\ masses after = masses (this w) ++ (rows_of PHYSICS_INFO c).*1.*1.*1
          /\ static_frictions after = static_frictions (this w) ++ (rows_of PHYSICS_INFO c).*1.*1.*2
          /\ dynamic_frictions after = dynamic_frictions (this w) ++ (rows_of PHYSICS_INFO c).*1.*2
          /\ bouncinesses after = bouncinesses (this w) ++ (rows_of PHYSICS_INFO c).*2
      end.
Proof.
  simpl.
  destruct (run_static (World (__init__ s) g) calls []) as (Hm & Hs & Hd & Hb);
    try reflexivity.
  simpl in *. split; [by repeat split|]. split.
  - rewrite Hm, Hs, Hd, Hb, !length_fmap. by repeat split.
  - intros w c. pose proof (step_static w c) as Hstep. simpl in Hstep.
    assert (length (rows_of PHYSICS_INFO c) <= 1)%nat as Hlen.
    { unfold rows_of. destruct (added PHYSICS_INFO c); simpl; lia. }
    destruct c; try exact Hstep; split; try exact Hlen; exact Hstep.
Qed.
End StaticArrays.

(** ** The module [random] *)

Section RandomFacts.
Implicit Types (g : random.state).

Lemma randbelow_range (n : Z) g :
  (0 < n)%Z ->
  exists r g', random._randbelow n g = (Ok r, g') /\ (0 <= r < n)%Z.
Proof.
  intros Hn. unfold random._randbelow, bind, random.next, ret. simpl.
  eexists _, _. split; [reflexivity|]. by apply Z.mod_pos_bound.
Qed.

Lemma randint_range (a b : Z) g :
  (a <= b)%Z ->
  exists r g', random.randint a b g = (Ok r, g') /\ (a <= r <= b)%Z.
Proof.
  intros Hab. unfold random.randint, random.randrange.
  destruct (Z.ltb_spec 0 (b + 1 - a)) as [Hw|Hw]; [|lia].
  unfold bind. destruct (randbelow_range (b + 1 - a) g Hw) as (r & g' & -> & Hr).
  unfold ret. eexists _, _. split; [reflexivity|]. lia.
Qed.

Lemma randint_empty (a b : Z) g :
  (b < a)%Z -> random.randint a b g = (Raise ValueError, g).
Proof.
  intros Hab. unfold random.randint, random.randrange.
  destruct (Z.ltb_spec 0 (b + 1 - a)) as [Hw|Hw]; [lia|]. reflexivity.
Qed.

Section Shuffle.
Context {A : Type}.
Implicit Types (x : list A).

Lemma insert_Permutation x (i : nat) (a b : A) :
  x !! i = Some a -> <[i := b]> x ≡ₚ b :: delete i x.
Proof.
  revert i. induction x as [|c x IH]; intros [|i] Hi; simplify_eq/=.
  - done.
  - rewrite (IH i Hi). apply Permutation_swap.
Qed.

Lemma swap_lt_Permutation x (i j : nat) (a b : A) :
  (i < j)%nat -> x !! i = Some a -> x !! j = Some b ->
  <[j := a]> (<[i := b]> x) ≡ₚ x.
Proof.
  revert i j. induction x as [|c x IH]; intros [|i] [|j] Hij Hi Hj;
    simplify_eq/=; try lia.
  - rewrite (insert_Permutation x j b a Hj).
    rewrite (delete_Permutation x j b Hj) at 2. apply Permutation_swap.
  - f_equiv. apply IH; [lia|done|done].
Qed.

Lemma swap_Permutation x (i j : nat) :
  (i < length x)%nat -> (j < length x)%nat ->
  exists x', random.swap i j x = Ok x' /\ x' ≡ₚ x.
Proof.
  intros Hi Hj. unfold random.swap.
  destruct (lookup_lt_is_Some_2 x i Hi) as [xi Hxi].
  destruct (lookup_lt_is_Some_2 x j Hj) as [xj Hxj].
  rewrite Hxi, Hxj. eexists. split; [reflexivity|].
  destruct (Nat.lt_trichotomy i j) as [Hlt|[->|Hlt]].
  - by apply swap_lt_Permutation.
  - simplify_eq. rewrite list_insert_insert_eq. by rewrite list_insert_id.
  - rewrite list_insert_insert_ne by lia. by apply swap_lt_Permutation.
Qed.

Lemma shuffle_from_Permutation (i : nat) x g :
  (i < length x)%nat \/ i = 0%nat ->
  exists x' g', random.shuffle_from i x g = (Ok x', g') /\ x' ≡ₚ x.
Proof.
  revert x g. induction i as [|i IH]; intros x g Hi.
  - eexists _, _. by split.
  - destruct Hi as [Hi|?]; [|done].
    cbn [random.shuffle_from]. unfold bind at 1.
    destruct (randbelow_range (Z.of_nat (Datatypes.S i) + 1) g) as (j & g1 & -> & Hj);
      [lia|].
    unfold bind at 1, lift.
    destruct (swap_Permutation x (Datatypes.S i) (Z.to_nat j)) as (x1 & -> & Hx1);
      [lia|lia|].
    destruct (IH x1 g1) as (x' & g' & -> & Hx').
    { left. rewrite (Permutation_length Hx1). lia. }
    eexists _, _. split; [reflexivity|]. by rewrite Hx'.
Qed.

Lemma shuffle_Permutation x g :
  exists x' g', random.shuffle x g = (Ok x', g') /\ x' ≡ₚ x.
Proof.
  unfold random.shuffle. apply shuffle_from_Permutation.
  destruct x; simpl; [by right | left; lia].
Qed.
End Shuffle.
End RandomFacts.

(** ** Launching the small objects *)

Section FallingCommands.
Context `{Float64 F} `{TransformsDataset F}.

Implicit Types (self : RigidbodiesDataset) (g : random.state) (o : Z) (mass : F).

Lemma physics_info_at_keys self o :
  o ∈ PyDict.keys (physics_info self) ->
  exists info, PyDict.get o (physics_info self) = Some info
               /\ physics_info_at self o = Ok info.
Proof.
  intros [info Hinfo]%dict_get_keys. exists info.
  unfold physics_info_at. by rewrite Hinfo.
Qed.

Lemma objects_below_filter self (keys : list Z) mass :
  (forall o, o ∈ keys -> o ∈ PyDict.keys (physics_info self)) ->
  objects_below self keys mass
  = Ok (filter (fun o => is_below self mass o = true) keys).
Proof.
  induction keys as [|o keys IH]; intros Hkeys; [done|].
  cbn [objects_below].
  destruct (physics_info_at_keys self o) as (info & Hget & ->); [apply Hkeys; by left|].
  rewrite IH by (intros; apply Hkeys; by right). simpl.
  assert (is_below self mass o = (PhysicsInfo.mass info ≺ mass)) as Hbelow.
  { unfold is_below. by rewrite Hget. }
  rewrite filter_cons, Hbelow.
  destruct (PhysicsInfo.mass info ≺ mass); by case_decide.
Qed.

Lemma get_objects_by_mass_filter mass self :
  get_objects_by_mass mass self
  = Ok (filter (fun o => is_below self mass o = true) (PyDict.keys (physics_info self))).
Proof. unfold get_objects_by_mass. by apply objects_below_filter. Qed.

Lemma wait_some_frames_replicate (per_frame_commands : list (list command)) :
  wait_some_frames per_frame_commands = per_frame_commands ++ replicate 20 [].
Proof.
  unfold wait_some_frames.
  change 20%nat with (length (seq 10 (30 - 10))) at 2.
  generalize (seq 10 (30 - 10)). intros waits. revert per_frame_commands.
  induction waits as [|j waits IH]; intros acc; simpl.
  - by rewrite app_nil_r.
  - rewrite IH. by rewrite <- app_assoc.
Qed.

Lemma falling_force_returns self o g :
  is_Some (PyDict.get o (physics_info self)) ->
  exists force g', falling_force self o g = (Ok force, g').
Proof.
  intros [info Hinfo].
  unfold falling_force, bind, random.uniform, random.random, random.next, bind, lift,
    ret, physics_info_at.
  simpl. rewrite Hinfo. eauto.
Qed.

(** The launch loop, for a count that does not exceed the ids at hand. *)
Lemma launch_spec self (n : nat) (small_ids : list Z)
    (per_frame_commands : list (list command)) g :
  (n <= length small_ids)%nat ->
  (forall o, o ∈ small_ids -> is_Some (PyDict.get o (physics_info self))) ->
  exists launched g',
    launch self n small_ids per_frame_commands g
    = (Ok (per_frame_commands ++ launch_blocks 20 launched), g')
    /\ launched.*2 = take n small_ids
    /\ Forall (fun fo => exists g1 g2, falling_force self fo.2 g1 = (Ok fo.1, g2))
         launched.
Proof.
  revert small_ids per_frame_commands g.
  induction n as [|n IH]; intros small_ids acc g Hn Hids.
  - exists [], g. unfold launch_blocks. simpl. rewrite app_nil_r.
    by repeat split.
  - destruct small_ids as [|o rest]; simpl in Hn; [lia|].
    cbn [launch]. unfold bind at 1, lift, pop0.
    destruct (falling_force_returns self o g) as (force & g1 & Hforce);
      [apply Hids; by left|].
    unfold bind at 1. rewrite Hforce.
    destruct (IH rest (wait_some_frames (acc ++ [[apply_force_to_object force o]])) g1)
      as (launched & g' & -> & Hlaunched & Hforces); [lia| |].
    { intros o' Ho'. apply Hids. by right. }
    exists ((force, o) :: launched), g'. split; [|split].
    + rewrite wait_some_frames_replicate. unfold launch_blocks, launch_block.
      simpl. by rewrite <- !app_assoc.
    + rewrite fmap_cons, Hlaunched. reflexivity.
    + constructor; [by exists g, g1 | done].
Qed.

(** With no small object, the count is drawn from the empty range [1..0]. *)
Lemma get_falling_commands_none mass self g :
  filter (fun o => is_below self mass o = true) (PyDict.keys (physics_info self)) = [] ->
  get_falling_commands mass self g = (Raise ValueError, g).
Proof.
  intros Hnone. unfold get_falling_commands.
  rewrite get_objects_by_mass_filter, Hnone. reflexivity.
Qed.

(** With small objects, some of them, in a shuffled order, are launched. *)
Lemma get_falling_commands_some mass self g :
  let small := filter (fun o => is_below self mass o = true)
                 (PyDict.keys (physics_info self)) in
  small <> [] ->
  exists shuffled count launched g',
    get_falling_commands mass self g = (Ok (launch_blocks 20 launched), g')
    /\ shuffled ≡ₚ small
    /\ (Z.max 1 (Z.min (Z.of_nat (length small)) 8 - 3) <= count
        <= Z.min (Z.of_nat (length small)) 8)%Z
    /\ launched.*2 = take (Z.to_nat count) shuffled
    /\ length launched = Z.to_nat count
    /\ Forall (fun fo => exists g1 g2, falling_force self fo.2 g1 = (Ok fo.1, g2))
         launched.
Proof.
  intros small Hsome. unfold get_falling_commands.
  rewrite get_objects_by_mass_filter. fold small. unfold bind at 1, lift.
  destruct (shuffle_Permutation small g) as (shuffled & g1 & Hshuffle & Hperm).
  unfold bind at 1. rewrite Hshuffle.
  pose proof (Permutation_length Hperm) as Hlen.
  assert (0 < length small)%nat as Hpos by (destruct small; simpl; [done|lia]).
  set (len := Z.of_nat (length shuffled)).
  set (hi := if (len <? 8)%Z then len else 8%Z).
  set (lo := if (hi - 3 <=? 0)%Z then 1%Z else (hi - 3)%Z).
  assert (hi = Z.min (Z.of_nat (length small)) 8) as Hhi.
  { unfold hi, len. rewrite Hlen. destruct (Z.ltb_spec (Z.of_nat (length small)) 8); lia. }
  assert (lo = Z.max 1 (hi - 3)) as Hlo.
  { unfold lo. destruct (Z.leb_spec (hi - 3) 0); lia. }
  destruct (randint_range lo hi g1) as (count & g2 & Hcount & Hrange); [lia|].
  unfold bind at 1. rewrite Hcount.
  destruct (launch_spec self (Z.to_nat count) shuffled [] g2)
    as (launched & g' & Hlaunch & Htake & Hforces).
  { lia. }
  { intros o Ho. rewrite Hperm in Ho. apply list_elem_of_filter in Ho as [_ Ho].
    by apply dict_get_keys. }
  exists shuffled, count, launched, g'. rewrite Hlaunch. simpl.
  split; [done|]. split; [done|]. split; [lia|]. split; [done|]. split; [|done].
  rewrite <- (length_fmap snd), Htake, length_take. lia.
Qed.
End FallingCommands.

Section FallingCommandsClaims.
Context `{Float64 F} `{TransformsDataset F}.

Implicit Types (self : RigidbodiesDataset) (g : random.state) (o : Z) (mass : F).

Lemma launch_blocks_length (waits : nat) (launched : list (vector3 F * Z)) :
  length (launch_blocks waits launched)
  = (length launched + length launched * waits)%nat.
Proof.
  unfold launch_blocks. induction launched as [|fo launched IH]; [done|].
  rewrite fmap_cons. simpl. rewrite length_app, length_replicate, IH. lia.
Qed.

Lemma elem_of_launch_blocks (waits : nat) (launched : list (vector3 F * Z))
    (cmds : list command) (c : command) :
  cmds ∈ launch_blocks waits launched -> c ∈ cmds ->
  exists fo, fo ∈ launched /\ c = apply_force_to_object fo.1 fo.2.
Proof.
  unfold launch_blocks. intros Hcmds Hc.
  apply list_elem_of_In, in_concat in Hcmds as (block & Hblock & Hcmds).
  apply list_elem_of_In in Hblock, Hcmds.
  apply list_elem_of_fmap in Hblock as (fo & -> & Hfo).
  exists fo. split; [done|]. unfold launch_block in Hcmds.
  apply elem_of_cons in Hcmds as [->|Hwait].
  - by apply list_elem_of_singleton in Hc.
  - apply elem_of_replicate in Hwait as [-> _]. by apply elem_of_nil in Hc.
Qed.

Lemma is_below_filter_nil mass self :
  (forall o info, PyDict.get o (physics_info self) = Some info ->
                  (PhysicsInfo.mass info ≺ mass) = false) ->
  filter (fun o => is_below self mass o = true) (PyDict.keys (physics_info self)) = [].
Proof.
  intros Hnone.
  destruct (filter _ _) as [|o small] eqn:Hsmall; [done|].
  assert (o ∈ o :: small) as Ho by (by left).
  rewrite <- Hsmall in Ho. apply list_elem_of_filter in Ho as [Hbelow Ho].
  apply dict_get_keys in Ho as [info Hinfo]. unfold is_below in Hbelow.
  rewrite Hinfo, (Hnone o info Hinfo) in Hbelow. discriminate.
Qed.

(** Every command [get_falling_commands] returns is an apply-force
    command, for an object recorded with a mass below the threshold, with a
    force that [falling_force] computed for that object. *)
Lemma get_falling_commands_launched mass self g out g' :
  get_falling_commands mass self g = (Ok out, g') ->
  forall cmds c, cmds ∈ out -> c ∈ cmds ->
  exists force o,
    c = apply_force_to_object force o
    /\ is_below self mass o = true
    /\ exists g1 g2, falling_force self o g1 = (Ok force, g2).
Proof.
  intros Hrun cmds c Hcmds Hc.
  destruct (filter (fun o => is_below self mass o = true)
              (PyDict.keys (physics_info self))) as [|o0 small0] eqn:Hsmall.
  { rewrite (get_falling_commands_none mass self g Hsmall) in Hrun. discriminate. }
  destruct (get_falling_commands_some mass self g)
    as (shuffled & count & launched & g'' & Hrun' & Hperm & _ & Htake & _ & Hforces).
  { rewrite Hsmall. discriminate. }
  rewrite Hrun' in Hrun. simplify_eq.
  destruct (elem_of_launch_blocks 20 launched cmds c Hcmds Hc) as ([force o] & Hfo & ->).
  exists force, o. split; [done|]. split.
  - assert (o ∈ launched.*2) as Ho by (apply list_elem_of_fmap; by exists (force, o)).
    rewrite Htake in Ho. apply subseteq_take in Ho. rewrite Hperm in Ho.
    by apply list_elem_of_filter in Ho as [? _].
  - rewrite Forall_forall in Hforces. apply (Hforces (force, o) Hfo).
Qed.

(** C3.  When some object is recorded with a mass below the threshold,
    [get_falling_commands] returns.  The objects [get_objects_by_mass]
    returns are exactly those recorded with a mass below the threshold; the
    method shuffles them and launches the first [count] of the shuffled
    list, one after the other, where [count] lies between 1 and 8, and more
    precisely between [max 1 (min n 8 - 3)] and [min n 8] for [n] the number
    of those objects.  So every launched object is one of them, and no
    object is launched twice (ids being recorded once).  The sequence
    returned is, for each launched object in turn, one list holding its
    single apply-force command followed by a run of empty lists whose length
    (always 20) is between 10 and 30, so its length is the number launched
    plus the lengths of the runs. *)
Theorem get_falling_commands_count mass self g :
  (exists o info, PyDict.get o (physics_info self) = Some info
                  /\ (PhysicsInfo.mass info ≺ mass) = true) ->
  exists qualifying shuffled count launched g',
    get_objects_by_mass mass self = Ok qualifying
    /\ (forall o, o ∈ qualifying <->
                  exists info, PyDict.get o (physics_info self) = Some info
                               /\ (PhysicsInfo.mass info ≺ mass) = true)
    /\ shuffled ≡ₚ qualifying
    /\ get_falling_commands mass self g = (Ok (launch_blocks 20 launched), g')
    /\ length launched = Z.to_nat count
    /\ (1 <= count <= 8)%Z
    /\ (Z.max 1 (Z.min (Z.of_nat (length qualifying)) 8 - 3) <= count
        <= Z.min (Z.of_nat (length qualifying)) 8)%Z
    /\ launched.*2 = take (Z.to_nat count) shuffled
    /\ launched.*2 ⊆ qualifying
    /\ (NoDup (PyDict.keys (physics_info self)) -> NoDup launched.*2)
    /\ (10 <= 20 <= 30)%nat
    /\ length (launch_blocks 20 launched)
       = (length launched + length launched * 20)%nat.
Proof.
  intros (o & info & Hinfo & Hbelow).
  set (small := filter (fun o => is_below self mass o = true)
                  (PyDict.keys (physics_info self))).
  assert (forall o', o' ∈ small <->
                     exists info', PyDict.get o' (physics_info self) = Some info'
                                   /\ (PhysicsInfo.mass info' ≺ mass) = true) as Hsmall.
  { intros o'. unfold small. rewrite list_elem_of_filter, dict_get_keys. unfold is_below.
    split.
    - intros [Hlt [info' Hget]]. rewrite Hget in Hlt. by exists info'.
    - intros (info' & Hget & Hlt). rewrite Hget. split; [done | by exists info']. }
  assert (o ∈ small) as Ho by (apply Hsmall; by exists info).
  destruct (get_falling_commands_some mass self g)
    as (shuffled & count & launched & g' & Hrun & Hperm & Hcount & Htake & Hlen & _).
  { fold small. intros Hnil. rewrite Hnil in Ho. by apply elem_of_nil in Ho. }
  fold small in Hperm, Hcount.
  exists small, shuffled, count, launched, g'.
  split; [apply get_objects_by_mass_filter|]. split; [exact Hsmall|].
  split; [done|]. split; [done|]. split; [done|].
  split; [lia|]. split; [done|]. split; [done|]. split; [|split; [|split]].
  - rewrite Htake. intros o' Ho'. apply subseteq_take in Ho'. by rewrite Hperm in Ho'.
  - intros Hnodup. rewrite Htake.
    assert (NoDup shuffled) as Hshuffled by (rewrite Hperm; by apply NoDup_filter).
    eapply sublist_NoDup; [exact Hshuffled | apply sublist_take].
  - lia.
  - apply launch_blocks_length.
Qed.

(** C10.  When no object is recorded with a mass below the threshold,
    [get_falling_commands] raises [ValueError] (from [randint(1, 0)]) and
    returns no command sequence; no random draw is consumed. *)
Theorem get_falling_commands_no_small_object mass self g :
  (forall o info, PyDict.get o (physics_info self) = Some info ->
                  (PhysicsInfo.mass info ≺ mass) = false) ->
  get_objects_by_mass mass self = Ok []
  /\ random.randint 1 0 g = (Raise ValueError, g)
  /\ get_falling_commands mass self g = (Raise ValueError, g).
Proof.
  intros Hnone. pose proof (is_below_filter_nil mass self Hnone) as Hnil.
  split; [by rewrite get_objects_by_mass_filter, Hnil|].
  split; [reflexivity|]. by apply get_falling_commands_none.
Qed.

(** C9.  [get_objects_by_mass m] returns exactly the ids recorded with a
    mass strictly below [m]; an object whose recorded mass is [m] is not
    among them, and no command of [get_falling_commands m] applies a force
    to it. *)
Theorem get_objects_by_mass_strict `{!Float64Order F} mass self :
  exists ids,
    get_objects_by_mass mass self = Ok ids
    /\ (forall o, o ∈ ids <->
                  exists info, PyDict.get o (physics_info self) = Some info
                               /\ (PhysicsInfo.mass info ≺ mass) = true)
    /\ (forall o info,
          PyDict.get o (physics_info self) = Some info ->
          PhysicsInfo.mass info = mass ->
          (o ∉ ids)
          /\ forall g out g' cmds force,
              get_falling_commands mass self g = (Ok out, g') ->
              cmds ∈ out -> apply_force_to_object force o ∉ cmds).
Proof.
  eexists. split; [apply get_objects_by_mass_filter|].
  assert (forall o, is_below self mass o = true <->
                    exists info, PyDict.get o (physics_info self) = Some info
                                 /\ (PhysicsInfo.mass info ≺ mass) = true) as Hbelow.
  { intros o. unfold is_below. destruct (PyDict.get o (physics_info self)) as [info|].
    - split; [by eauto | by intros (? & [= <-] & ?)].
    - split; [done | by intros (? & [=] & _)]. }
  split.
  - intros o. rewrite list_elem_of_filter, <- Hbelow. split; [by intros [? _]|].
    intros Ho. split; [done|]. apply Hbelow in Ho as (info & Hinfo & _).
    apply dict_get_keys. by exists info.
  - intros o info Hinfo Hmass.
    assert (is_below self mass o = false) as Hnot.
    { unfold is_below. rewrite Hinfo, Hmass. apply fltb_irrefl. }
    split.
    + rewrite list_elem_of_filter. intros [Ho _]. congruence.
    + intros g out g' cmds force Hrun Hcmds Hc.
      destruct (get_falling_commands_launched mass self g out g' Hrun cmds _ Hcmds Hc)
        as (force' & o' & [= <- <-] & Ho & _).
      congruence.
Qed.
End FallingCommandsClaims.

(** ** The launch forces *)

Section LaunchForces.
Context `{Float64 F} `{TransformsDataset F}.

Implicit Types (self : RigidbodiesDataset) (g : random.state).





End LaunchForces.

(** ** The per-frame writer *)

Section WriteFrame.
Context `{Float64 F} `{TransformsDataset F}.

Implicit Types (self : RigidbodiesDataset) (tr : gmap Z (transform F))
  (a : @frame_arrays F) (resp : list (output_data F)) (r : output_data F).

Lemma scan_rigidbodies_spec tr (ri : list (Rigidbodies.row F))
    (ri_dict : gmap Z (array3 F * array3 F)) (asleep : bool) :
  match scan_rigidbodies tr ri ri_dict asleep with
  | Ok (_, asleep') => asleep' = asleep && forallb (fun row => negb (awake_in_scene tr row)) ri
  | Raise e => e = KeyError
  end.
Proof.
  revert ri_dict asleep. induction ri as [|row ri IH]; intros ri_dict asleep.
  - simpl. by rewrite andb_true_r.
  - cbn [scan_rigidbodies forallb]. unfold awake_in_scene at 1.
    destruct (Rigidbodies.get_sleeping row); simpl.
    + apply IH.
    + destruct (tr !! Rigidbodies.get_id row) as [t|]; simpl; [|done].
      match goal with |- context [scan_rigidbodies tr ri ?d ?b] =>
        specialize (IH d b); destruct (scan_rigidbodies tr ri d b) as [[d' b']|e]
      end; [|done].
      rewrite IH. destruct (of_int (-1) ≼ index1 (pos t)); simpl; [|done].
      by rewrite andb_false_r.
Qed.

Lemma fill_rigidbodies_raises (ri_dict : gmap Z (array3 F * array3 F))
    (ids : list (Z * nat)) (vs avs : list (option (array3 F))) e :
  fill_rigidbodies ri_dict ids vs avs = Raise e -> e = KeyError.
Proof.
  revert vs avs. induction ids as [|[o i] ids IH]; intros vs avs; simpl; [done|].
  destruct (ri_dict !! o); [|congruence]. apply IH.
Qed.

Lemma append_contacts_data (contacts : list (array3 F * array3 F)) (arr : np.ndarray F) :
  np.data (append_contacts contacts arr) = np.data arr ++ flat_contacts contacts.
Proof.
  unfold append_contacts, flat_contacts. revert arr.
  induction contacts as [|c contacts IH]; intros arr; simpl.
  - by rewrite app_nil_r.
  - rewrite IH. simpl. by rewrite <- app_assoc.
Qed.

(** What the scan of a response leaves in the arrays. *)
Lemma write_all_spec (ids : list Z) tr a resp :
  match write_all ids tr a resp with
  | Ok a' =>
      sleeping a'
      = sleeping a
        && forallb (fun row => negb (awake_in_scene tr row)) (rigidbodies_in resp)
      /\ np.data (collision_ids a')
         = np.data (collision_ids a)
           ++ (collisions_in resp ≫= fun co =>
                 [Collision.get_collider_id co; Collision.get_collidee_id co])
      /\ np.data (collision_relative_velocities a')
         = np.data (collision_relative_velocities a)
           ++ (collisions_in resp ≫= fun co =>
                 array_flat (Collision.get_relative_velocity co))
      /\ np.data (collision_contacts a')
         = np.data (collision_contacts a)
           ++ (collisions_in resp ≫= fun co => flat_contacts (Collision.contacts co))
      /\ np.data (env_collision_ids a')
         = np.data (env_collision_ids a)
           ++ (EnvironmentCollision.get_object_id <$> env_collisions_in resp)
      /\ np.shape (env_collision_ids a')
         = match env_collisions_in resp with
           | [] => np.shape (env_collision_ids a)
           | _ => [length (np.data (env_collision_ids a'))]
           end
      /\ np.data (env_collision_contacts a')
         = np.data (env_collision_contacts a)
           ++ (env_collisions_in resp ≫= fun en =>
                 flat_contacts (EnvironmentCollision.contacts en))
  | Raise e => e = KeyError
  end.
Proof.
  revert a. induction resp as [|r resp IH]; intros a.
  - simpl. rewrite andb_true_r, !app_nil_r. by repeat split.
  - cbn [write_all]. unfold rigidbodies_in, collisions_in, env_collisions_in in *.
    rewrite !bind_cons. destruct r as [ri|co|en|r_id]; simpl.
    + pose proof (scan_rigidbodies_spec tr ri ∅ (sleeping a)) as Hscan.
      destruct (scan_rigidbodies tr ri ∅ (sleeping a)) as [[ri_dict asleep]|e];
        simpl; [|done].
      destruct (fill_rigidbodies ri_dict _ _ _) as [[vs avs]|e] eqn:Hfill; simpl.
      * match goal with |- context [write_all ids tr ?a1 resp] =>
          specialize (IH a1); destruct (write_all ids tr a1 resp) as [a'|e]
        end; [|done].
        simpl in IH. destruct IH as (-> & -> & -> & -> & -> & -> & ->).
        rewrite forallb_app, Hscan, andb_assoc. by repeat split.
      * by apply fill_rigidbodies_raises in Hfill.
    + match goal with |- context [write_all ids tr ?a1 resp] =>
        specialize (IH a1); destruct (write_all ids tr a1 resp) as [a'|e]
      end; [|done].
      simpl in IH. destruct IH as (-> & -> & -> & -> & -> & -> & ->).
      rewrite append_contacts_data, <- !app_assoc. by repeat split.
    + match goal with |- context [write_all ids tr ?a1 resp] =>
        specialize (IH a1); destruct (write_all ids tr a1 resp) as [a'|e]
      end; [|done].
      simpl in IH. destruct IH as (-> & -> & -> & -> & Hids & Hshape & ->).
      rewrite append_contacts_data, <- !app_assoc.
      rewrite Hids, <- app_assoc. repeat split; try done.
      rewrite Hshape. destruct (resp ≫= _); [done|].
      by rewrite Hids, <- app_assoc.
    + apply IH.
Qed.

Lemma length_bind_const {A B} (f : A -> list B) (k : nat) (l : list A) :
  (forall elt, length (f elt) = k) -> length (l ≫= f) = (length l * k)%nat.
Proof.
  intros Hf. induction l as [|elt l IH]; [done|].
  rewrite bind_cons, length_app, Hf, IH. simpl. lia.
Qed.

Lemma flat_contacts_length (contacts : list (array3 F * array3 F)) :
  length (flat_contacts contacts) = (length contacts * 6)%nat.
Proof.
  unfold flat_contacts. apply length_bind_const.
  by intros [[[? ?] ?] [[? ?] ?]].
Qed.

Lemma length_bind_flat_contacts {A} (f : A -> list (array3 F * array3 F)) (l : list A) :
  length (l ≫= fun elt => flat_contacts (f elt)) = (length (l ≫= f) * 6)%nat.
Proof.
  induction l as [|elt l IH]; [done|].
  rewrite !bind_cons, !length_app, IH, flat_contacts_length. lia.
Qed.

Lemma reshape_infer_multiple {A} (arr : np.ndarray A) (dims : list nat) (n : nat) :
  np.numel dims <> 0%nat ->
  np.size arr = (n * np.numel dims)%nat ->
  np.reshape_infer arr dims = Ok (np.NdArray (np.data arr) (n :: dims)).
Proof.
  intros Hdims Hsize. unfold np.reshape_infer. rewrite Hsize.
  rewrite decide_True by (split; [done | by apply Nat.Div0.mod_mul]).
  by rewrite Nat.div_mul.
Qed.

(** C2, as the code has it.  For a response whose all-but-last elements
    hold N collision messages with K contacts in all and M
    environment-collision messages with K' contacts in all, [_write_frame]
    either raises [KeyError] (from the rigid-body remap) or writes collision
    object ids of shape (N, 2), relative velocities of shape (N, 3) and
    contacts of shape (K, 2, 3), environment-collision object ids with M
    elements (stored flat, as (M,), or as the empty (0, 1) array; they
    reshape to (M, 1)) and environment contacts of shape (K', 2, 3).  No
    reshape raises. *)
Theorem write_frame_collision_shapes resp (frame_num : Z) self :
  let events := collisions_in (removelast resp) in
  let env_events := env_collisions_in (removelast resp) in
  let N := length events in
  let K := length (events ≫= Collision.contacts) in
  let M := length env_events in
  let K' := length (env_events ≫= EnvironmentCollision.contacts) in
  match fst (_write_frame resp frame_num self) with
  | Ok (datasets, _, _) =>
      collisions_object_ids datasets
      = np.NdArray
          (events ≫= fun co =>
             [Collision.get_collider_id co; Collision.get_collidee_id co])
          [N; 2]
      /\ np.size (collisions_object_ids datasets) = np.numel [N; 2]
      /\ collisions_relative_velocities datasets
         = np.NdArray
             (events ≫= fun co => array_flat (Collision.get_relative_velocity co))
             [N; 3]
      /\ np.size (collisions_relative_velocities datasets) = np.numel [N; 3]
      /\ collisions_contacts datasets
         = np.NdArray (events ≫= fun co => flat_contacts (Collision.contacts co))
             [K; 2; 3]
      /\ np.size (collisions_contacts datasets) = np.numel [K; 2; 3]
      /\ env_collisions_object_ids datasets
         = np.NdArray (EnvironmentCollision.get_object_id <$> env_events)
             (match M with O => [0; 1] | _ => [M] end)%nat
      /\ np.reshape (env_collisions_object_ids datasets) [M; 1]
         = Ok (np.NdArray (EnvironmentCollision.get_object_id <$> env_events) [M; 1])
      /\ env_collisions_contacts datasets
         = np.NdArray
             (env_events ≫= fun en => flat_contacts (EnvironmentCollision.contacts en))
             [K'; 2; 3]
      /\ np.size (env_collisions_contacts datasets) = np.numel [K'; 2; 3]
  | Raise e => e = KeyError
  end.
Proof.
  simpl. unfold _write_frame.
  destruct (super_write_frame resp frame_num (super self)) as [tr s]. simpl.
  pose proof (write_all_spec (object_ids s) tr
                (initial_arrays (length (object_ids s))) (removelast resp)) as Hscan.
  destruct (write_all _ _ _ _) as [a|e]; simpl; [|done].
  destruct Hscan as (_ & Hids & Hvel & Hcontacts & Henv & Hshape & Henvc).
  simpl in Hids, Hvel, Hcontacts, Henv, Hshape, Henvc.
  set (events := collisions_in (removelast resp)) in *.
  set (env_events := env_collisions_in (removelast resp)) in *.
  assert (np.size (collision_ids a) = (length events * np.numel [2])%nat) as Hn1.
  { unfold np.size. rewrite Hids. by apply length_bind_const. }
  assert (np.size (collision_relative_velocities a)
          = (length events * np.numel [3])%nat) as Hn2.
  { unfold np.size. rewrite Hvel. apply length_bind_const.
    intros co. by destruct (Collision.get_relative_velocity co) as [[? ?] ?]. }
  assert (np.size (collision_contacts a)
          = (length (events ≫= Collision.contacts) * np.numel [2; 3])%nat) as Hn3.
  { unfold np.size. rewrite Hcontacts. apply length_bind_flat_contacts. }
  assert (np.size (env_collision_contacts a)
          = (length (env_events ≫= EnvironmentCollision.contacts) * np.numel [2; 3])%nat)
    as Hn4.
  { unfold np.size. rewrite Henvc. apply length_bind_flat_contacts. }
  unfold create_datasets.
  rewrite (reshape_infer_multiple (collision_ids a) [2] _) by (compute; lia || exact Hn1).
  simpl.
  rewrite (reshape_infer_multiple (collision_relative_velocities a) [3] _)
    by (compute; lia || exact Hn2).
  simpl.
  rewrite (reshape_infer_multiple (collision_contacts a) [2; 3] _)
    by (compute; lia || exact Hn3).
  simpl.
  rewrite (reshape_infer_multiple (env_collision_contacts a) [2; 3] _)
    by (compute; lia || exact Hn4).
  simpl.
  unfold np.size in *. simpl in *.
  assert (env_collision_ids a
          = np.NdArray (EnvironmentCollision.get_object_id <$> env_events)
              (match length env_events with O => [0; 1] | _ => [length env_events] end)%nat)
    as Henv_ids.
  { destruct (env_collision_ids a) as [d sh]. simpl in *. subst d. f_equal.
    rewrite Hshape. destruct env_events; [done|]. by rewrite length_fmap. }
  rewrite Hids in Hn1. rewrite Hvel in Hn2. rewrite Hcontacts in Hn3.
  rewrite Henvc in Hn4.
  rewrite Hids, Hvel, Hcontacts, Henvc, Henv_ids.
  repeat split; try (simpl; lia).
  unfold np.reshape, np.size, np.numel. cbn [np.data foldr].
  rewrite decide_True by (rewrite length_fmap; lia). done.
Qed.

(** C1, as the code has it.  When [_write_frame] returns, its episode-done
    flag is true exactly when every row of every [Rigidbodies] message among
    the all-but-last elements of the response, for an object whose last known
    height (in the parent's [tr]) is at least -1, reports the object asleep.
    Rows for objects below -1 do not count; neither does the last element of
    the response. *)
Theorem write_frame_done resp (frame_num : Z) self
    (datasets : frame_datasets) tr (done : bool) :
  fst (_write_frame resp frame_num self) = Ok (datasets, tr, done) ->
  tr = fst (super_write_frame resp frame_num (super self))
  /\ (done = true <->
      forall row t,
        row ∈ rigidbodies_in (removelast resp) ->
        tr !! Rigidbodies.get_id row = Some t ->
        (of_int (-1) ≼ index1 (pos t)) = true ->
        Rigidbodies.get_sleeping row = true).
Proof.
  unfold _write_frame.
  destruct (super_write_frame resp frame_num (super self)) as [tr' s]. simpl.
  pose proof (write_all_spec (object_ids s) tr'
                (initial_arrays (length (object_ids s))) (removelast resp)) as Hscan.
  destruct (write_all _ _ _ _) as [a|e]; simpl; [|discriminate].
  destruct (create_datasets a) as [ds|e]; simpl; [|discriminate].
  intros [= <- <- <-]. split; [done|].
  destruct Hscan as (-> & _). simpl.
  rewrite forallb_forall. split.
  - intros Hall row t Hrow Htr Hy. apply list_elem_of_In, Hall in Hrow.
    unfold awake_in_scene in Hrow. rewrite Htr, Hy in Hrow.
    by destruct (Rigidbodies.get_sleeping row).
  - intros Hall row Hrow%list_elem_of_In. unfold awake_in_scene.
    destruct (Rigidbodies.get_sleeping row) eqn:Hasleep; [done|]. simpl.
    destruct (tr' !! Rigidbodies.get_id row) as [t|] eqn:Htr; [|done].
    destruct (of_int (-1) ≼ index1 (pos t)) eqn:Hy; [|done].
    specialize (Hall row t Hrow Htr Hy). congruence.
Qed.
(** *** When the writer returns, and the flag over the tracked objects *)

(** The dictionary the first loop builds from the rows of a message. *)
Lemma scan_rigidbodies_dict tr (ri : list (Rigidbodies.row F))
    (ri_dict ri_dict' : gmap Z (array3 F * array3 F)) (asleep asleep' : bool) :
  scan_rigidbodies tr ri ri_dict asleep = Ok (ri_dict', asleep') ->
  forall o, is_Some (ri_dict' !! o) <->
            is_Some (ri_dict !! o) \/ exists row, row ∈ ri /\ Rigidbodies.get_id row = o.
Proof.
  revert ri_dict asleep. induction ri as [|row ri IH]; intros ri_dict asleep Hscan o.
  - simpl in Hscan. simplify_eq. split; [by left|].
    intros [?|(row & Hrow & _)]; [done | by apply elem_of_nil in Hrow].
  - cbn [scan_rigidbodies] in Hscan.
    destruct (if Rigidbodies.get_sleeping row then Ok asleep else _) as [b|e];
      simpl in Hscan; [|discriminate].
    rewrite (IH _ _ Hscan o), lookup_insert_is_Some. split.
    + intros [[Hid|[_ Hold]]|(row' & Hrow' & Hid)].
      * right. exists row. split; [by left | done].
      * by left.
      * right. exists row'. split; [by right | done].
    + intros [Hold|(row' & Hrow' & Hid)].
      * destruct (decide (Rigidbodies.get_id row = o)); [by left; left|].
        left. by right.
      * apply elem_of_cons in Hrow' as [->|Hrow'].
        -- by left; left.
        -- right. by exists row'.
Qed.

Lemma scan_rigidbodies_returns tr (ri : list (Rigidbodies.row F))
    (ri_dict : gmap Z (array3 F * array3 F)) (asleep : bool) :
  (forall row, row ∈ ri -> Rigidbodies.get_sleeping row = false ->
               is_Some (tr !! Rigidbodies.get_id row)) ->
  exists ri_dict' asleep', scan_rigidbodies tr ri ri_dict asleep = Ok (ri_dict', asleep').
Proof.
  revert ri_dict asleep. induction ri as [|row ri IH]; intros ri_dict asleep Htr.
  - by eexists _, _.
  - cbn [scan_rigidbodies].
    assert (exists b, (if Rigidbodies.get_sleeping row then Ok asleep
                       else match tr !! Rigidbodies.get_id row with
                            | Some t =>
                                Ok (if of_int (-1) ≼ index1 (pos t) then false else asleep)
                            | None => Raise KeyError
                            end) = Ok b) as [b ->].
    { destruct (Rigidbodies.get_sleeping row) eqn:Hrow; [by eexists|].
      destruct (Htr row) as [t ->]; [by left | done | by eexists]. }
    simpl. apply IH. intros row' Hrow'. apply Htr. by right.
Qed.

Lemma fill_rigidbodies_covered (ri_dict : gmap Z (array3 F * array3 F))
    (ids : list (Z * nat)) (vs avs : list (option (array3 F))) :
  (exists filled, fill_rigidbodies ri_dict ids vs avs = Ok filled)
  <-> forall o, o ∈ ids.*1 -> is_Some (ri_dict !! o).
Proof.
  revert vs avs. induction ids as [|[o i] ids IH]; intros vs avs; simpl.
  - split; [|by eauto]. intros _ o Ho. by apply elem_of_nil in Ho.
  - destruct (ri_dict !! o) as [entry|] eqn:Hentry.
    + rewrite IH. split.
      * intros Hids o' [->|Ho']%elem_of_cons; [by rewrite Hentry | by apply Hids].
      * intros Hids o' Ho'. apply Hids. by right.
    + split; [by intros [? [=]]|].
      intros Hids. destruct (Hids o) as [? Hsome]; [by left|]. congruence.
Qed.

Lemma fst_zip_seq (ids : list Z) : (zip ids (seq 0 (length ids))).*1 = ids.
Proof. apply fst_zip. by rewrite length_seq. Qed.

(** A response is scanned without error exactly when each of its
    [Rigidbodies] messages has a row for every tracked object and [tr] knows
    every object a row reports awake. *)
Lemma write_all_returns (ids : list Z) tr a resp :
  (exists a', write_all ids tr a resp = Ok a')
  <-> forall ri, rigi ri ∈ resp ->
        (forall o, o ∈ ids -> exists row, row ∈ ri /\ Rigidbodies.get_id row = o)
        /\ (forall row, row ∈ ri -> Rigidbodies.get_sleeping row = false ->
                        is_Some (tr !! Rigidbodies.get_id row)).
Proof.
  revert a. induction resp as [|r resp IH]; intros a.
  - split; [|by eauto]. intros _ ri Hri. by apply elem_of_nil in Hri.
  - cbn [write_all].
    assert (forall P : list (Rigidbodies.row F) -> Prop,
              (forall ri, rigi ri ∈ r :: resp -> P ri)
              <-> (forall ri, r = rigi ri -> P ri) /\ (forall ri, rigi ri ∈ resp -> P ri))
      as Hsplit.
    { intros P. split.
      - intros HP. split; intros ri Hri; apply HP; [subst; by left | by right].
      - intros [Hr Hresp] ri [<-|Hri]%elem_of_cons; [by apply Hr | by apply Hresp]. }
    rewrite Hsplit. clear Hsplit.
    destruct r as [ri|co|en|r_id]; simpl;
      try (rewrite IH; split; [by intros ?; split | by intros [_ ?]]).
    destruct (scan_rigidbodies tr ri ∅ (sleeping a)) as [[ri_dict asleep]|e] eqn:Hscan;
      simpl.
    + pose proof (scan_rigidbodies_dict tr ri ∅ ri_dict _ _ Hscan) as Hdict.
      destruct (fill_rigidbodies ri_dict _ _ _) as [[vs avs]|e] eqn:Hfill; simpl.
      * rewrite IH. split; [|by intros [_ ?]]. intros Hresp. split; [|done].
        intros ri' [= <-]. split.
        -- intros o Ho.
           assert (is_Some (ri_dict !! o)) as Hsome.
           { eapply fill_rigidbodies_covered; [by eexists|]. by rewrite fst_zip_seq. }
           apply Hdict in Hsome as [Hempty|?]; [|done].
           rewrite lookup_empty in Hempty. by destruct Hempty.
        -- intros row Hrow Hawake.
           destruct (tr !! Rigidbodies.get_id row) eqn:Htr; [done|]. exfalso.
           clear Hdict Hfill. revert Hscan. generalize (sleeping a).
           generalize (∅ : gmap Z (array3 F * array3 F)).
           induction ri as [|row' ri IHri]; intros d b Hscan;
             [by apply elem_of_nil in Hrow|].
           cbn [scan_rigidbodies] in Hscan.
           apply elem_of_cons in Hrow as [<-|Hrow].
           ++ by rewrite Hawake, Htr in Hscan.
           ++ destruct (if Rigidbodies.get_sleeping row' then Ok b else _) as [b'|e];
                simpl in Hscan; [|discriminate].
              by eapply IHri.
      * split; [by intros [? [=]]|]. intros [Hri _]. exfalso.
        destruct (Hri ri eq_refl) as [Hcover _].
        assert (exists filled,
                  fill_rigidbodies ri_dict (zip ids (seq 0 (length ids)))
                    (velocities a) (angular_velocities a) = Ok filled) as [? Hok].
        { apply fill_rigidbodies_covered. rewrite fst_zip_seq. intros o Ho.
          apply Hdict. right. by apply Hcover. }
        congruence.
    + split; [by intros [? [=]]|]. intros [Hri _]. exfalso.
      destruct (Hri ri eq_refl) as [_ Htr].
      destruct (scan_rigidbodies_returns tr ri ∅ (sleeping a) Htr) as (? & ? & Hok).
      congruence.
Qed.

Lemma create_datasets_returns (ids : list Z) tr (n : nat) resp a :
  write_all ids tr (initial_arrays n) resp = Ok a ->
  exists datasets, create_datasets a = Ok datasets.
Proof.
  intros Hscan. pose proof (write_all_spec ids tr (initial_arrays n) resp) as Hspec.
  rewrite Hscan in Hspec. destruct Hspec as (_ & Hids & Hvel & Hcontacts & _ & _ & Henvc).
  simpl in Hids, Hvel, Hcontacts, Henvc. unfold create_datasets.
  rewrite (reshape_infer_multiple (collision_ids a) [2] (length (collisions_in resp))).
  2: compute; lia.
  2: { unfold np.size. rewrite Hids. by apply length_bind_const. }
  simpl.
  rewrite (reshape_infer_multiple (collision_relative_velocities a) [3]
             (length (collisions_in resp))).
  2: compute; lia.
  2: { unfold np.size. rewrite Hvel. apply length_bind_const.
       intros co. by destruct (Collision.get_relative_velocity co) as [[? ?] ?]. }
  simpl.
  rewrite (reshape_infer_multiple (collision_contacts a) [2; 3]
             (length (collisions_in resp ≫= Collision.contacts))).
  2: compute; lia.
  2: { unfold np.size. rewrite Hcontacts. apply length_bind_flat_contacts. }
  simpl.
  rewrite (reshape_infer_multiple (env_collision_contacts a) [2; 3]
             (length (env_collisions_in resp ≫= EnvironmentCollision.contacts))).
  2: compute; lia.
  2: { unfold np.size. rewrite Henvc. apply length_bind_flat_contacts. }
  simpl. by eexists.
Qed.

(** X2.  [_write_frame] returns exactly when no lookup fails: every
    [Rigidbodies] message among the all-but-last elements of the response has
    a row for each tracked object, and the parent's [tr] knows every object
    such a message reports awake.  Otherwise it raises [KeyError]. *)
Theorem write_frame_returns resp (frame_num : Z) self :
  let tr := fst (super_write_frame resp frame_num (super self)) in
  let tracked := object_ids (snd (super_write_frame resp frame_num (super self))) in
  ((exists result, fst (_write_frame resp frame_num self) = Ok result)
   <-> forall ri, rigi ri ∈ removelast resp ->
         (forall o, o ∈ tracked -> exists row, row ∈ ri /\ Rigidbodies.get_id row = o)
         /\ (forall row, row ∈ ri -> Rigidbodies.get_sleeping row = false ->
                         is_Some (tr !! Rigidbodies.get_id row)))
  /\ (forall e, fst (_write_frame resp frame_num self) = Raise e -> e = KeyError).
Proof.
  simpl. unfold _write_frame.
  destruct (super_write_frame resp frame_num (super self)) as [tr s]. simpl.
  rewrite <- (write_all_returns (object_ids s) tr
                (initial_arrays (length (object_ids s))) (removelast resp)).
  pose proof (write_all_spec (object_ids s) tr
                (initial_arrays (length (object_ids s))) (removelast resp)) as Hspec.
  destruct (write_all _ _ _ _) as [a|e] eqn:Hscan; simpl.
  - destruct (create_datasets_returns _ _ _ _ _ Hscan) as [datasets ->]. simpl.
    split; [split; by eauto | by intros ? [=]].
  - split; [split; by intros [? [=]] | by intros ? [= <-]].
Qed.

Lemma NoDup_fmap_eq {A B} (f : A -> B) (l : list A) (a1 a2 : A) :
  NoDup (f <$> l) -> a1 ∈ l -> a2 ∈ l -> f a1 = f a2 -> a1 = a2.
Proof.
  induction l as [|a0 l IH]; intros Hnodup H1 H2 Hf; [by apply elem_of_nil in H1|].
  rewrite fmap_cons in Hnodup. apply NoDup_cons in Hnodup as [Hfresh Hnodup].
  apply elem_of_cons in H1 as [->|H1]; apply elem_of_cons in H2 as [->|H2].
  - done.
  - exfalso. apply Hfresh. rewrite Hf. apply list_elem_of_fmap. by exists a2.
  - exfalso. apply Hfresh. rewrite <- Hf. apply list_elem_of_fmap. by exists a1.
  - by apply IH.
Qed.

(** X1.  The flag over the tracked objects.  When [_write_frame] returns for a
    response whose all-but-last elements hold a [Rigidbodies] message, report
    only tracked objects and report no object twice, its episode-done flag is
    true exactly when every tracked object whose last known height is at
    least -1 is reported asleep. *)
Theorem write_frame_done_tracked resp (frame_num : Z) self
    (datasets : frame_datasets) tr (done : bool) :
  let tracked := object_ids (snd (super_write_frame resp frame_num (super self))) in
  fst (_write_frame resp frame_num self) = Ok (datasets, tr, done) ->
  (exists ri, rigi ri ∈ removelast resp) ->
  (forall row, row ∈ rigidbodies_in (removelast resp) ->
               Rigidbodies.get_id row ∈ tracked) ->
  NoDup (Rigidbodies.get_id <$> rigidbodies_in (removelast resp)) ->
  (done = true <-> every_tracked_object_asleep tracked tr (removelast resp)).
Proof.
  simpl. unfold _write_frame.
  destruct (super_write_frame resp frame_num (super self)) as [tr' s]. simpl.
  pose proof (write_all_spec (object_ids s) tr'
                (initial_arrays (length (object_ids s))) (removelast resp)) as Hspec.
  destruct (write_all _ _ _ _) as [a|e] eqn:Hscan; simpl; [|discriminate].
  destruct (create_datasets a) as [ds|e]; simpl; [|discriminate].
  intros [= <- <- <-] [ri Hri] Htracked Hnodup.
  destruct Hspec as (-> & _). simpl.
  assert (forall ri, rigi ri ∈ removelast resp ->
            forall row, row ∈ ri -> row ∈ rigidbodies_in (removelast resp)) as Hrows.
  { intros ri' Hri' row Hrow. unfold rigidbodies_in. apply list_elem_of_bind.
    by exists (rigi ri'). }
  destruct (proj1 (write_all_returns _ _ _ _) (ex_intro _ a Hscan) ri Hri) as [Hcover _].
  rewrite forallb_forall. unfold every_tracked_object_asleep. split.
  - intros Hall o t Ho Htr Hy. destruct (Hcover o Ho) as (row & Hrow & <-).
    exists row. split; [by eapply Hrows|]. split; [done|].
    apply (Hrows ri Hri) in Hrow. apply list_elem_of_In, Hall in Hrow.
    unfold awake_in_scene in Hrow. rewrite Htr, Hy in Hrow.
    by destruct (Rigidbodies.get_sleeping row).
  - intros Hall row Hrow%list_elem_of_In. unfold awake_in_scene.
    destruct (Rigidbodies.get_sleeping row) eqn:Hawake; [done|]. simpl.
    destruct (tr' !! Rigidbodies.get_id row) as [t|] eqn:Htr; [|done].
    destruct (of_int (-1) ≼ index1 (pos t)) eqn:Hy; [|done].
    destruct (Hall (Rigidbodies.get_id row) t (Htracked row Hrow) Htr Hy)
      as (row' & Hrow' & Hid & Hasleep).
    assert (row' = row) as -> by (by eapply NoDup_fmap_eq).
    congruence.
Qed.
End WriteFrame.

(** ** The order on scalars *)

Lemma SFltb_irrefl (f : SpecFloat.spec_float) : SpecFloat.SFltb f f = false.
Proof.
  unfold SpecFloat.SFltb, SpecFloat.SFcompare.
  destruct f as [s|s| |s m e]; simpl.
  - done.
  - by destruct s.
  - done.
  - destruct s; rewrite Z.compare_refl, Pos.compare_cont_refl; done.
Qed.

#[export] Instance float_Float64Order : Float64Order float.
Proof.
  constructor. intros x. simpl. rewrite FloatAxioms.ltb_spec. apply SFltb_irrefl.
Qed.

(** ** Concrete runs *)

Section Runs.
Import Example.

(** C1, the claim as stated fails in both directions.  With object 1
    tracked and reported asleep, and an untracked object 2 reported awake at
    height 0, the flag is false although every tracked object is reported
    asleep.  With no [Rigidbodies] message in the response, the flag is true
    although the tracked object 1, at height 0, is reported asleep by no
    message. *)
Lemma write_frame_done_counterexample :
  (exists datasets tr,
     let self := recorder_tracking (F:=float) [1%Z] [(1%Z, of_int 0); (2%Z, of_int 0)] in
     fst (_write_frame frame_with_stranger 0 self) = Ok (datasets, tr, false)
     /\ every_tracked_object_asleep (object_ids (super self)) tr frame_with_stranger)
  /\ (exists datasets tr,
       let self := recorder_tracking (F:=float) [1%Z] [(1%Z, of_int 0)] in
       fst (_write_frame frame_without_rigidbodies 0 self) = Ok (datasets, tr, true)
       /\ ~ every_tracked_object_asleep (object_ids (super self)) tr
              frame_without_rigidbodies).
Proof.
  split.
  - eexists _, _. split; [reflexivity|].
    intros o t Ho _ _. apply list_elem_of_singleton in Ho as ->.
    exists (row 1 true). split; [|done]. by left.
  - eexists _, _. split; [reflexivity|].
    intros Hall.
    destruct (Hall 1%Z (Transform (of_int 0, of_int 0, of_int 0)
                          (of_int 0, of_int 0, of_int 1)
                          (of_int 0, of_int 0, of_int 0, of_int 1)))
      as (r & Hr & _); [by left | reflexivity | reflexivity |].
    by apply elem_of_nil in Hr.
Qed.

Lemma write_frame_done_witness :
  exists datasets tr,
    let self := recorder_tracking (F:=float) [1%Z] [(1%Z, of_int 0)] in
    fst (_write_frame frame_asleep 0 self) = Ok (datasets, tr, true)
    /\ tr = fst (super_write_frame frame_asleep 0 (super self))
    /\ (true = true <->
        forall (r : Rigidbodies.row float) t,
          r ∈ rigidbodies_in (removelast frame_asleep) ->
          tr !! Rigidbodies.get_id r = Some t ->
          (of_int (-1) ≼ index1 (pos t)) = true ->
          Rigidbodies.get_sleeping r = true).
Proof.
  eexists _, _. split; [reflexivity|].
  eapply (write_frame_done frame_asleep 0
            (recorder_tracking (F:=float) [1%Z] [(1%Z, of_int 0)])).
  reflexivity.
Defined.

(** C2, the claim as stated fails for the contacts: a frame with one
    collision that has two contacts writes contacts of shape (2, 2, 3), which
    do not reshape to (1, 2, 3). *)
Lemma write_frame_collision_shapes_counterexample :
  exists datasets tr done,
    fst (_write_frame frame_two_contacts 0 (recorder_tracking (F:=float) [] []))
    = Ok (datasets, tr, done)
    /\ length (collisions_in (F:=float) (removelast frame_two_contacts)) = 1%nat
    /\ np.shape (collisions_contacts datasets) = [2; 2; 3]%nat
    /\ np.reshape (collisions_contacts datasets) [1; 2; 3]%nat = Raise ValueError.
Proof.
  eexists _, _, _. split; [reflexivity|]. by repeat split.
Qed.

Lemma get_falling_commands_count_witness :
  (exists o info,
     PyDict.get o (physics_info (recorder_with (F:=float) [of_int 1; of_int 3; of_int 2]))
     = Some info
     /\ (PhysicsInfo.mass info ≺ of_int 3) = true)
  /\ exists qualifying shuffled count launched g',
      get_objects_by_mass (of_int 3)
        (recorder_with (F:=float) [of_int 1; of_int 3; of_int 2]) = Ok qualifying
      /\ (forall o,
            o ∈ qualifying <->
            exists info,
              PyDict.get o
                (physics_info (recorder_with (F:=float) [of_int 1; of_int 3; of_int 2]))
              = Some info
              /\ (PhysicsInfo.mass info ≺ of_int 3) = true)
      /\ shuffled ≡ₚ qualifying
      /\ get_falling_commands (of_int 3)
           (recorder_with (F:=float) [of_int 1; of_int 3; of_int 2])
           (draws_of [5; 7; 1000; 2000; 3000; 4000; 1; 2; 3; 4])%nat
         = (Ok (launch_blocks 20 launched), g')
      /\ length launched = Z.to_nat count
      /\ (1 <= count <= 8)%Z
      /\ (Z.max 1 (Z.min (Z.of_nat (length qualifying)) 8 - 3) <= count
          <= Z.min (Z.of_nat (length qualifying)) 8)%Z
      /\ launched.*2 = take (Z.to_nat count) shuffled
      /\ launched.*2 ⊆ qualifying
      /\ (NoDup (PyDict.keys
                   (physics_info (recorder_with (F:=float) [of_int 1; of_int 3; of_int 2])))
          -> NoDup launched.*2)
      /\ (10 <= 20 <= 30)%nat
      /\ length (launch_blocks 20 launched)
         = (length launched + length launched * 20)%nat.
Proof.
  split.
  - eexists 1%Z, _. split; reflexivity.
  - apply get_falling_commands_count. eexists 1%Z, _. split; reflexivity.
Defined.

Lemma add_physics_object_default_resolves_witness :
  registry (F:=float) !! "chair" = Some chair
  /\ add_physics_object_default (F:=float) registry "chair" origin origin None
       (__init__ fresh_parent)
     = add_physics_object (F:=float) ("chair_01" : ModelRecord) origin origin
         (of_int 5) (lit 3 10) (lit 4 10) (lit 2 10) None (__init__ fresh_parent).
Proof.
  split; [reflexivity|].
  apply (add_physics_object_default_resolves registry "chair" chair). reflexivity.
Defined.

Lemma get_falling_commands_no_small_object_witness :
  (forall o info,
     PyDict.get o (physics_info (recorder_with (F:=float) [of_int 5])) = Some info ->
     (PhysicsInfo.mass info ≺ of_int 3) = false)
  /\ get_objects_by_mass (of_int 3) (recorder_with (F:=float) [of_int 5]) = Ok []
  /\ random.randint 1 0 (draws_of [4; 2]%nat) = (Raise ValueError, draws_of [4; 2]%nat)
  /\ get_falling_commands (of_int 3) (recorder_with (F:=float) [of_int 5])
       (draws_of [4; 2]%nat)
     = (Raise ValueError, draws_of [4; 2]%nat).
Proof.
  assert (forall o info,
            PyDict.get o (physics_info (recorder_with (F:=float) [of_int 5])) = Some info ->
            (PhysicsInfo.mass info ≺ of_int 3) = false) as Hnone.
  { intros o info.
    change (physics_info (recorder_with (F:=float) [of_int 5]))
      with [(1%Z, PhysicsInfo.Make (F:=float) ("cube" : ModelRecord) (of_int 5)
                    (lit 3 10) (lit 4 10) (lit 2 10))].
    simpl. destruct (decide (o = 1%Z)); [|discriminate].
    intros [= <-]. reflexivity. }
  split; [exact Hnone|].
  apply (get_falling_commands_no_small_object (of_int 3)
           (recorder_with (F:=float) [of_int 5]) (draws_of [4; 2]%nat) Hnone).
Defined.

Lemma get_objects_by_mass_strict_witness :
  Float64Order float
  /\ exists ids,
      get_objects_by_mass (of_int 3)
        (recorder_with (F:=float) [of_int 1; of_int 3; of_int 2]) = Ok ids
      /\ (1%Z ∈ ids) /\ (2%Z ∉ ids) /\ (3%Z ∈ ids).
Proof.
  split; [exact float_Float64Order|].
  destruct (get_objects_by_mass_strict (F:=float) (of_int 3)
              (recorder_with (F:=float) [of_int 1; of_int 3; of_int 2]))
    as (ids & Hids & Hin & Heq).
  exists ids. split; [exact Hids|]. split; [|split].
  - apply Hin. eexists. split; reflexivity.
  - eapply Heq; reflexivity.
  - apply Hin. eexists. split; reflexivity.
Defined.



Lemma write_frame_done_tracked_witness :
  exists datasets tr,
    fst (_write_frame frame_asleep 0 (recorder_tracking (F:=float) [1%Z] [(1%Z, of_int 0)]))
    = Ok (datasets, tr, true)
    /\ (exists ri, rigi (F:=float) ri ∈ removelast frame_asleep)
    /\ (forall r : Rigidbodies.row float,
          r ∈ rigidbodies_in (removelast frame_asleep) -> Rigidbodies.get_id r ∈ [1%Z])
    /\ NoDup (Rigidbodies.get_id <$> rigidbodies_in (F:=float) (removelast frame_asleep))
    /\ (true = true <-> every_tracked_object_asleep [1%Z] tr (removelast frame_asleep)).
Proof.
  assert (exists ri, rigi (F:=float) ri ∈ removelast frame_asleep) as Hmessage.
  { eexists. by left. }
  assert (forall r : Rigidbodies.row float,
            r ∈ rigidbodies_in (removelast frame_asleep) -> Rigidbodies.get_id r ∈ [1%Z])
    as Htracked.
  { intros r Hr. apply list_elem_of_singleton in Hr as ->. by left. }
  assert (NoDup (Rigidbodies.get_id <$> rigidbodies_in (F:=float) (removelast frame_asleep)))
    as Hnodup.
  { apply NoDup_singleton. }
  eexists _, _. split; [reflexivity|]. split; [exact Hmessage|].
  split; [exact Htracked|]. split; [exact Hnodup|].
  exact (write_frame_done_tracked frame_asleep 0
           (recorder_tracking (F:=float) [1%Z] [(1%Z, of_int 0)]) _ _ true eq_refl
           Hmessage Htracked Hnodup).
Defined.
End Runs.

(** ** The physics info over an episode *)

Section PhysicsInfoFacts.
Context `{Float64 F} `{TransformsDataset F}.
Variable PHYSICS_INFO : gmap string (PhysicsInfo.t F).

Implicit Types (self : RigidbodiesDataset) (w : world) (c : call)
  (d : PyDict.t (PhysicsInfo.t F)).

Lemma dict_keys_set (k k' : Z) (v : PhysicsInfo.t F) d :
  k' ∈ PyDict.keys (PyDict.set k v d) <-> k' = k \/ k' ∈ PyDict.keys d.
Proof.
  rewrite !dict_get_keys. destruct (decide (k' = k)) as [->|Hne].
  - rewrite dict_get_set_eq. split; [by left | by eauto].
  - rewrite dict_get_set_ne by congruence. split; [by right | by intros [?|?]].
Qed.

Lemma dict_set_NoDup (k : Z) (v : PhysicsInfo.t F) d :
  NoDup (PyDict.keys d) -> NoDup (PyDict.keys (PyDict.set k v d)).
Proof.
  unfold PyDict.keys. induction d as [|[k0 v0] d IH]; intros Hnodup; simpl.
  - apply NoDup_singleton.
  - apply NoDup_cons in Hnodup as [Hfresh Hnodup].
    destruct (decide (k = k0)) as [->|Hne]; simpl.
    + by apply NoDup_cons.
    + apply NoDup_cons. split; [|by apply IH].
      intros [?|Hin]%dict_keys_set; [congruence | done].
Qed.

Lemma add_physics_object_info (record : ModelRecord) (position rotation : vector3 F)
    (mass dynamic_friction static_friction bounciness : F) (o_id : option Z) self :
  exists o,
    (forall o', o_id = Some o' -> o = o')
    /\ physics_info (snd (add_physics_object record position rotation mass dynamic_friction
                           static_friction bounciness o_id self))
       = PyDict.set o
           (PhysicsInfo.Make record mass dynamic_friction static_friction bounciness)
           (physics_info self).
Proof.
  unfold add_physics_object.
  destruct (match o_id with
            | None => get_unique_id (super self)
            | Some o => (o, super self)
            end) as [o s] eqn:Ho.
  destruct (add_transforms_object o record position rotation s) as [add_object s'].
  exists o. split; [|done]. intros o' ->. by simplify_eq.
Qed.

(** A call either leaves the physics info as it is or assigns one entry. *)
Lemma step_physics_info w c :
  physics_info (this (step PHYSICS_INFO w c)) = physics_info (this w)
  \/ exists o info,
       physics_info (this (step PHYSICS_INFO w c))
       = PyDict.set o info (physics_info (this w)).
Proof.
  destruct c; simpl; try (by left).
  - left. by destruct (random_primitive_static object_types scale color w) as (_&_&_&_&?).
  - right. unfold on_this.
    destruct (add_physics_object_info record position rotation mass dynamic_friction
                static_friction bounciness o_id (this w)) as (o & _ & Hinfo).
    destruct (add_physics_object _ _ _ _ _ _ _ _ _) as [r self']. simpl in *. eauto.
  - unfold on_this, add_physics_object_default.
    destruct (PHYSICS_INFO !! name) as [info|]; [right | by left].
    destruct (add_physics_object_info (PhysicsInfo.record info) position rotation
                (PhysicsInfo.mass info) (PhysicsInfo.dynamic_friction info)
                (PhysicsInfo.static_friction info) (PhysicsInfo.bounciness info)
                o_id (this w)) as (o & _ & Hinfo).
    destruct (add_physics_object _ _ _ _ _ _ _ _ _) as [r self']. simpl in *. eauto.
  - left. unfold on_random. by destruct (get_falling_commands mass (this w) (rand w)).
  - left. unfold on_this.
    pose proof (write_frame_static resp frame_num (this w)) as (_&_&_&_&?).
    by destruct (_write_frame resp frame_num (this w)).
Qed.

(** X3.  After [__init__], no method removes an entry of [physics_info]:
    whatever calls follow, [clear_static_data] included, every id recorded
    stays recorded, and no id is recorded twice.  [clear_static_data]
    empties the four static arrays and leaves [physics_info] as it is, so
    objects of an earlier episode remain candidates of
    [get_objects_by_mass]. *)
Theorem physics_info_keys_grow w (calls : list call) :
  NoDup (PyDict.keys (physics_info (this w))) ->
  NoDup (PyDict.keys (physics_info (this (run PHYSICS_INFO w calls))))
  /\ (forall o, o ∈ PyDict.keys (physics_info (this w)) ->
                o ∈ PyDict.keys (physics_info (this (run PHYSICS_INFO w calls))))
  /\ (let cleared := this (step PHYSICS_INFO w call_clear_static_data) in
      masses cleared = [] /\ static_frictions cleared = []
      /\ dynamic_frictions cleared = [] /\ bouncinesses cleared = []
      /\ physics_info cleared = physics_info (this w)
      /\ forall mass, get_objects_by_mass mass cleared = get_objects_by_mass mass (this w)).
Proof.
  intros Hnodup. split; [|split];
    [| |simpl; repeat split; intros mass; by rewrite !get_objects_by_mass_filter].
  - revert w Hnodup. induction calls as [|c calls IH]; intros w Hnodup; [done|].
    apply IH. destruct (step_physics_info w c) as [->|(o & info & ->)]; [done|].
    by apply dict_set_NoDup.
  - clear Hnodup. revert w. induction calls as [|c calls IH]; intros w o Ho; [done|].
    apply IH. destruct (step_physics_info w c) as [->|(o' & info & ->)]; [done|].
    apply dict_keys_set. by right.
Qed.

(** X4.  Adding an object and asking for the light objects: after
    [add_physics_object] with id [o] and mass [m], [get_objects_by_mass t]
    returns [o] exactly when [m < t] -- the mass just given decides, also when
    [o] was recorded before with another mass -- and returns any other id
    exactly when it did before the call. *)
Theorem add_physics_object_then_get_objects_by_mass (record : ModelRecord)
    (position rotation : vector3 F)
    (mass dynamic_friction static_friction bounciness : F) (o : Z) self (threshold : F) :
  let self' := snd (add_physics_object record position rotation mass dynamic_friction
                      static_friction bounciness (Some o) self) in
  exists ids ids',
    get_objects_by_mass threshold self = Ok ids
    /\ get_objects_by_mass threshold self' = Ok ids'
    /\ (o ∈ ids' <-> (mass ≺ threshold) = true)
    /\ (forall o', o' <> o -> (o' ∈ ids' <-> o' ∈ ids))
    /\ physics_info_at self' o
       = Ok (PhysicsInfo.Make record mass dynamic_friction static_friction bounciness).
Proof.
  simpl.
  destruct (add_physics_object_info record position rotation mass dynamic_friction
              static_friction bounciness (Some o) self) as (o0 & Ho & Hinfo).
  rewrite (Ho o eq_refl) in Hinfo. clear Ho o0.
  set (self' := snd (add_physics_object _ _ _ _ _ _ _ _ _)) in *.
  eexists _, _. split; [apply get_objects_by_mass_filter|].
  split; [apply get_objects_by_mass_filter|].
  rewrite Hinfo. split; [|split].
  - rewrite list_elem_of_filter, dict_keys_set. unfold is_below.
    rewrite Hinfo, dict_get_set_eq. simpl. split; [by intros [? _] | by eauto].
  - intros o' Hne. rewrite !list_elem_of_filter, dict_keys_set. unfold is_below.
    rewrite Hinfo, dict_get_set_ne by congruence.
    split; [intros [? [?|?]]; by eauto | intros [? ?]; by eauto].
  - unfold physics_info_at. by rewrite Hinfo, dict_get_set_eq.
Qed.

Lemma concat_launch_blocks (waits : nat) (launched : list (vector3 F * Z)) :
  concat (launch_blocks waits launched)
  = (fun fo => apply_force_to_object fo.1 fo.2) <$> launched.
Proof.
  assert (forall n, concat (replicate n ([] : list command)) = []) as Hempty.
  { intros n. induction n as [|n IHn]; [done|]. simpl. exact IHn. }
  unfold launch_blocks. induction launched as [|fo launched IH]; [done|].
  rewrite !fmap_cons. cbn [concat]. rewrite concat_app, IH. unfold launch_block.
  cbn [concat]. rewrite Hempty. reflexivity.
Qed.

Lemma forced_ids_launch_blocks (waits : nat) (launched : list (vector3 F * Z)) :
  forced_ids (launch_blocks waits launched) = launched.*2.
Proof.
  unfold forced_ids. rewrite concat_launch_blocks.
  induction launched as [|fo launched IH]; [done|].
  rewrite !fmap_cons, bind_cons, IH. reflexivity.
Qed.

(** X5.  [get_falling_commands] never launches an object twice: when no id
    is recorded twice in [physics_info], the ids its apply-force commands name
    are pairwise different, at most 8, and each is recorded with a mass below
    the threshold. *)
Theorem get_falling_commands_no_repeat (mass : F) self g
    (out : list (list command)) g' :
  NoDup (PyDict.keys (physics_info self)) ->
  get_falling_commands mass self g = (Ok out, g') ->
  NoDup (forced_ids out)
  /\ (length (forced_ids out) <= 8)%nat
  /\ (forall o, o ∈ forced_ids out -> is_below self mass o = true).
Proof.
  intros Hnodup Hrun.
  destruct (filter (fun o => is_below self mass o = true)
              (PyDict.keys (physics_info self))) as [|o0 small0] eqn:Hsmall.
  { rewrite (get_falling_commands_none mass self g Hsmall) in Hrun. discriminate. }
  destruct (get_falling_commands_some mass self g)
    as (shuffled & count & launched & g'' & Hrun' & Hperm & Hcount & Htake & Hlen & _).
  { rewrite Hsmall. discriminate. }
  rewrite Hrun' in Hrun. simplify_eq. rewrite forced_ids_launch_blocks, Htake.
  assert (NoDup shuffled) as Hshuffled.
  { rewrite Hperm. by apply NoDup_filter. }
  split; [|split].
  - eapply sublist_NoDup; [exact Hshuffled | apply sublist_take].
  - rewrite length_take. lia.
  - intros o Ho. apply subseteq_take in Ho. rewrite Hperm in Ho.
    by apply list_elem_of_filter in Ho as [? _].
Qed.
End PhysicsInfoFacts.

(** ** The velocities a frame records *)

Section Velocities.
Context `{Float64 F} `{TransformsDataset F}.

Implicit Types (self : RigidbodiesDataset) (tr : gmap Z (transform F))
  (a : @frame_arrays F) (resp : list (output_data F))
  (ri_dict : gmap Z (array3 F * array3 F)).

(** The entry of [ri_dict] for an id is that of the last row with this id. *)
Lemma scan_rigidbodies_lookup tr (ri : list (Rigidbodies.row F)) ri_dict ri_dict'
    (asleep asleep' : bool) (o : Z) :
  scan_rigidbodies tr ri ri_dict asleep = Ok (ri_dict', asleep') ->
  ri_dict' !! o
  = match last (filter (fun row => Rigidbodies.get_id row = o) ri) with
    | Some row => Some (Rigidbodies.get_velocity row, Rigidbodies.get_angular_velocity row)
    | None => ri_dict !! o
    end.
Proof.
  revert ri_dict asleep. induction ri as [|row ri IH]; intros ri_dict asleep Hscan.
  - simpl in Hscan. by simplify_eq.
  - cbn [scan_rigidbodies] in Hscan.
    destruct (if Rigidbodies.get_sleeping row then Ok asleep else _) as [b|e];
      simpl in Hscan; [|discriminate].
    rewrite (IH _ _ Hscan), filter_cons.
    destruct (decide (Rigidbodies.get_id row = o)) as [<-|Hne].
    + rewrite last_cons, lookup_insert_eq. by destruct (last _).
    + by rewrite lookup_insert_ne.
Qed.

(** The second loop writes row [k + j] from the entry of the [j]-th id and
    leaves the rows before [k] alone. *)
Lemma fill_rigidbodies_lookup ri_dict (ids : list Z) (k : nat)
    (vs avs vs' avs' : list (option (array3 F))) :
  fill_rigidbodies ri_dict (zip ids (seq k (length ids))) vs avs = Ok (vs', avs') ->
  length vs' = length vs /\ length avs' = length avs
  /\ (forall j, (j < k)%nat -> vs' !! j = vs !! j /\ avs' !! j = avs !! j)
  /\ (forall j o, ids !! j = Some o ->
        exists entry, ri_dict !! o = Some entry
          /\ ((k + j < length vs)%nat -> vs' !! (k + j)%nat = Some (Some entry.1))
          /\ ((k + j < length avs)%nat -> avs' !! (k + j)%nat = Some (Some entry.2))).
Proof.
  revert k vs avs. induction ids as [|o ids IH]; intros k vs avs Hfill.
  - simpl in Hfill. simplify_eq. repeat split; intros; by simplify_eq.
  - cbn [length seq zip zip_with fill_rigidbodies] in Hfill.
    destruct (ri_dict !! o) as [entry|] eqn:Hentry; [|discriminate].
    apply IH in Hfill as (Hlen & Hlen' & Hbefore & Hrows).
    rewrite length_insert in Hlen, Hlen'. split; [done|]. split; [done|]. split.
    + intros j Hj. destruct (Hbefore j) as [-> ->]; [lia|].
      by rewrite !list_lookup_insert_ne by lia.
    + intros [|j] o' Ho'; simpl in Ho'.
      * simplify_eq. exists entry. split; [done|]. rewrite Nat.add_0_r.
        destruct (Hbefore k) as [-> ->]; [lia|].
        split; intros ?; by rewrite list_lookup_insert_eq.
      * destruct (Hrows j o' Ho') as (entry' & Hentry' & Hv & Hav).
        exists entry'. split; [done|]. rewrite length_insert in Hv, Hav.
        replace (k + Datatypes.S j)%nat with (Datatypes.S k + j)%nat by lia. done.
Qed.

Lemma write_all_app (ids : list Z) tr a resp1 resp2 :
  write_all ids tr a (resp1 ++ resp2)
  = res_bind (write_all ids tr a resp1) (fun a1 => write_all ids tr a1 resp2).
Proof.
  revert a. induction resp1 as [|r resp1 IH]; intros a; [done|].
  simpl. destruct (write_output_data ids tr a r); simpl; [apply IH | done].
Qed.

Lemma write_output_data_velocities (ids : list Z) tr a a' (r : output_data F) :
  write_output_data ids tr a r = Ok a' ->
  length (velocities a') = length (velocities a)
  /\ length (angular_velocities a') = length (angular_velocities a)
  /\ ((forall ri, r <> rigi ri) ->
      velocities a' = velocities a /\ angular_velocities a' = angular_velocities a).
Proof.
  destruct r as [ri|co|en|r_id]; simpl; intros Hr; simplify_eq; simpl;
    try (by repeat split).
  destruct (scan_rigidbodies tr ri ∅ (sleeping a)) as [[ri_dict asleep]|e];
    simpl in Hr; [|discriminate].
  destruct (fill_rigidbodies ri_dict _ _ _) as [[vs avs]|e] eqn:Hfill;
    simpl in Hr; [|discriminate].
  simplify_eq. simpl.
  apply fill_rigidbodies_lookup in Hfill as (? & ? & _).
  split; [done|]. split; [done|]. intros Hne. by destruct (Hne ri).
Qed.

Lemma write_all_velocities (ids : list Z) tr a a' resp :
  write_all ids tr a resp = Ok a' ->
  length (velocities a') = length (velocities a)
  /\ length (angular_velocities a') = length (angular_velocities a)
  /\ ((forall ri, rigi ri ∉ resp) ->
      velocities a' = velocities a /\ angular_velocities a' = angular_velocities a).
Proof.
  revert a. induction resp as [|r resp IH]; intros a Hall.
  - simpl in Hall. by simplify_eq.
  - cbn [write_all] in Hall.
    destruct (write_output_data ids tr a r) as [a1|e] eqn:Hr; simpl in Hall;
      [|discriminate].
    apply write_output_data_velocities in Hr as (Hl1 & Hl2 & Hsame).
    apply IH in Hall as (Hl3 & Hl4 & Hsame').
    split; [congruence|]. split; [congruence|].
    intros Hnone. destruct Hsame as [E1 E2].
    { intros ri ->. apply (Hnone ri). by left. }
    destruct Hsame' as [E3 E4]; [|split; congruence].
    intros ri Hri. apply (Hnone ri). by right.
Qed.

Lemma create_datasets_velocities a (datasets : frame_datasets) :
  create_datasets a = Ok datasets ->
  objs_velocities datasets = velocities a
  /\ objs_angular_velocities datasets = angular_velocities a.
Proof.
  unfold create_datasets. intros Hcreate.
  repeat match type of Hcreate with
         | res_bind ?r _ = _ => destruct r; simpl in Hcreate; [|discriminate]
         end.
  by simplify_eq.
Qed.

(** X6.  The velocities of a frame follow the recorder's object ids.  When
    [_write_frame] returns, [velocities] and [angular_velocities] have one row
    per tracked object; row [i] holds what the last [Rigidbodies] message
    among the all-but-last elements of the response reports for the [i]-th
    tracked id (in its last row for that id), whatever the order of the rows
    in the message; with no such message every row is left unset. *)
Theorem write_frame_velocities resp (frame_num : Z) self
    (datasets : frame_datasets) tr (done : bool) :
  let tracked := object_ids (snd (super_write_frame resp frame_num (super self))) in
  fst (_write_frame resp frame_num self) = Ok (datasets, tr, done) ->
  length (objs_velocities datasets) = length tracked
  /\ length (objs_angular_velocities datasets) = length tracked
  /\ ((forall ri, rigi ri ∉ removelast resp) ->
      objs_velocities datasets = replicate (length tracked) None
      /\ objs_angular_velocities datasets = replicate (length tracked) None)
  /\ (forall front ri back,
        removelast resp = front ++ rigi ri :: back ->
        (forall ri', rigi ri' ∉ back) ->
        forall (i : nat) (o : Z),
          tracked !! i = Some o ->
          exists row,
            last (filter (fun row => Rigidbodies.get_id row = o) ri) = Some row
            /\ objs_velocities datasets !! i = Some (Some (Rigidbodies.get_velocity row))
            /\ objs_angular_velocities datasets !! i
               = Some (Some (Rigidbodies.get_angular_velocity row))).
Proof.
  simpl. unfold _write_frame.
  destruct (super_write_frame resp frame_num (super self)) as [tr' s]. simpl.
  set (n := length (object_ids s)).
  destruct (write_all (object_ids s) tr' (initial_arrays n) (removelast resp))
    as [a|e] eqn:Hall; simpl; [|discriminate].
  destruct (create_datasets a) as [ds|e] eqn:Hcreate; simpl; [|discriminate].
  intros [= <- <- <-].
  apply create_datasets_velocities in Hcreate as [-> ->].
  pose proof (write_all_velocities _ _ _ _ _ Hall) as (Hlen & Hlen' & Hnone).
  simpl in Hlen, Hlen', Hnone. rewrite length_replicate in Hlen, Hlen'.
  split; [done|]. split; [done|]. split; [done|].
  intros front ri back Hresp Hback i o Ho.
  rewrite Hresp, write_all_app in Hall.
  destruct (write_all (object_ids s) tr' (initial_arrays n) front) as [a1|e] eqn:Hfront;
    cbn [res_bind write_all] in Hall; [|discriminate].
  destruct (write_output_data (object_ids s) tr' a1 (rigi ri)) as [a2|e] eqn:Hri;
    cbn [res_bind] in Hall; [|discriminate].
  apply write_all_velocities in Hfront as (Hl1 & Hl1' & _).
  simpl in Hl1, Hl1'. rewrite length_replicate in Hl1, Hl1'.
  apply write_all_velocities in Hall as (_ & _ & Hsame).
  destruct (Hsame Hback) as [-> ->]. clear Hsame.
  simpl in Hri.
  destruct (scan_rigidbodies tr' ri ∅ (sleeping a1)) as [[ri_dict asleep]|e] eqn:Hscan;
    simpl in Hri; [|discriminate].
  destruct (fill_rigidbodies ri_dict _ _ _) as [[vs avs]|e] eqn:Hfill;
    simpl in Hri; [|discriminate].
  simplify_eq. simpl.
  apply fill_rigidbodies_lookup in Hfill as (_ & _ & _ & Hrows).
  destruct (Hrows i o Ho) as (entry & Hentry & Hv & Hav).
  rewrite (scan_rigidbodies_lookup _ _ _ _ _ _ o Hscan), lookup_empty in Hentry.
  destruct (last _) as [row|]; [|discriminate]. simplify_eq.
  apply lookup_lt_Some in Ho.
  exists row. split; [done|]. split; [apply Hv | apply Hav]; simpl; lia.
Qed.
End Velocities.

(** ** Random primitives *)

Section RandomPrimitive.
Context `{Float64 F} `{TransformsDataset F}.

Lemma bind_Ok {S A B} (m : M S A) (k : A -> M S B) (s s' : S) (a : A) :
  m s = (Ok a, s') -> bind m k s = k a s'.
Proof. intros Hm. unfold bind. by rewrite Hm. Qed.

Lemma bind_Raise {S A B} (m : M S A) (k : A -> M S B) (s s' : S) (e : exn) :
  m s = (Raise e, s') -> bind m k s = (Raise e, s').
Proof. intros Hm. unfold bind. by rewrite Hm. Qed.

Lemma choice_spec {A} (seq : list A) (g : random.state) :
  match seq with
  | [] => random.choice seq g = (Raise IndexError, g)
  | _ => exists a, a ∈ seq /\ random.choice seq g
           = (Ok a, random.State (random.raw g) (Datatypes.S (random.cursor g)))
  end.
Proof.
  destruct seq as [|a0 seq]; [done|].
  unfold random.choice, bind, random._randbelow, bind, random.next, ret.
  set (i := (Z.of_nat (random.raw g (random.cursor g)) mod Z.of_nat (length (a0 :: seq)))%Z).
  assert (0 <= i < Z.of_nat (length (a0 :: seq)))%Z as Hi.
  { apply Z.mod_pos_bound. simpl. lia. }
  destruct (lookup_lt_is_Some_2 (a0 :: seq) (Z.to_nat i)) as [a Ha]; [lia|].
  exists a. split; [by eapply list_elem_of_lookup_2|].
  simpl. fold i. simpl in Ha. by rewrite Ha.
Qed.

(** The runs of [random_primitive], with the state each one leaves. *)
Lemma random_primitive_run (object_types : list ModelRecord) (scale : list F)
    (color : option (list F)) (w : world) :
  let result := random_primitive object_types scale color w in
  let id := fst (get_unique_id (super (this w))) in
  let s1 := snd (get_unique_id (super (this w))) in
  (object_types = [] /\ result = (Raise IndexError, w))
  \/ (object_types <> [] /\ (length scale < 2)%nat
      /\ fst result = Raise IndexError
      /\ this (snd result) = set_super s1 (this w))
  \/ exists record scale0 scale1 (u : nat),
       let scaled := scale0 ⊕ (scale1 ⊖ scale0) ⊗ random.unit_of_raw u in
       let s2 := set_scales (scales s1 ++ [scaled]) s1 in
       record ∈ object_types
       /\ scale !! 0%nat = Some scale0 /\ scale !! 1%nat = Some scale1
       /\ ((exists c, color = Some c /\ c <> [] /\ length c <> 3%nat
                      /\ fst result = Raise ValueError
                      /\ this (snd result) = set_super s2 (this w))
           \/ (exists r g b,
                 (forall c, color = Some c -> c <> [] -> c = [r; g; b])
                 /\ ((color = None \/ color = Some []) ->
                     exists u1 u2 u3, r = random.unit_of_raw u1
                                      /\ g = random.unit_of_raw u2
                                      /\ b = random.unit_of_raw u3)
                 /\ fst result
                    = Ok (record, ObjData id scaled [r; g; b] (record_name record))
                 /\ this (snd result)
                    = set_super (set_colors (colors s2 ++ [(r, g, b)]) s2) (this w))).
Proof.
  simpl. unfold random_primitive.
  pose proof (choice_spec object_types (rand w)) as Hchoice.
  destruct object_types as [|r0 rest].
  { left. split; [done|]. erewrite bind_Raise; [done|].
    unfold on_random. rewrite Hchoice. by destruct w. }
  right. destruct Hchoice as (record & Hin & Hchoice).
  erewrite bind_Ok; [|unfold on_random; by rewrite Hchoice].
  destruct (get_unique_id (super (this w))) as [id s1] eqn:Hid.
  erewrite bind_Ok; [|unfold on_this; cbn [this rand]; by rewrite Hid].
  cbn [fst snd].
  destruct scale as [|scale0 [|scale1 scale]].
  { left. erewrite bind_Raise; [|reflexivity]. repeat split; simpl; done || lia. }
  { left. erewrite bind_Ok; [|reflexivity]. erewrite bind_Raise; [|reflexivity].
    repeat split; simpl; done || lia. }
  right. exists record, scale0, scale1.
  erewrite bind_Ok; [|reflexivity]. erewrite bind_Ok; [|reflexivity].
  erewrite bind_Ok; [|reflexivity]. cbn [this rand random.raw random.cursor].
  eexists. split; [done|]. split; [done|]. split; [done|].
  destruct color as [[|r [|g [|b [|x cs]]]]|];
    (erewrite bind_Ok; [|reflexivity]); (erewrite bind_Ok; [|reflexivity]);
    cbn [this rand random.raw random.cursor super set_super].
  - (* Some [] *) right. eexists _, _, _. split; [by intros c [= <-]|].
    split; [intros _; by eexists _, _, _|]. split; reflexivity.
  - (* Some [r] *) left. eexists. split; [done|]. split; [done|]. split; [simpl; lia|].
    split; reflexivity.
  - left. eexists. split; [done|]. split; [done|]. split; [simpl; lia|].
    split; reflexivity.
  - (* Some [r; g; b] *) right. exists r, g, b. split; [by intros c [= <-]|].
    split; [by intros [?|?]|]. split; reflexivity.
  - left. eexists. split; [done|]. split; [done|]. split; [simpl; lia|].
    split; reflexivity.
  - (* None *) right. eexists _, _, _. split; [by intros c [=]|].
    split; [intros _; by eexists _, _, _|]. split; reflexivity.
Qed.

(** X7.  How [random_primitive] ends.  It raises [IndexError] exactly when
    the list of candidate records is empty or [scale] has fewer than two
    entries, and [ValueError] exactly when neither holds and a non-empty
    [color] was given that does not have three components.  Otherwise it
    returns one of the candidate records with its name, the id the parent
    hands out, and a colour of three components: the colour given if it is
    not empty, a random one if it is. *)
Theorem random_primitive_outcome (object_types : list ModelRecord) (scale : list F)
    (color : option (list F)) (w : world) :
  match fst (random_primitive object_types scale color w) with
  | Ok (record, data) =>
      record ∈ object_types
      /\ (2 <= length scale)%nat
      /\ obj_id data = fst (get_unique_id (super (this w)))
      /\ obj_name data = record_name record
      /\ length (obj_color data) = 3%nat
      /\ (forall c, color = Some c -> c <> [] -> obj_color data = c)
  | Raise IndexError => object_types = [] \/ (length scale < 2)%nat
  | Raise ValueError =>
      object_types <> [] /\ (2 <= length scale)%nat
      /\ exists c, color = Some c /\ c <> [] /\ length c <> 3%nat
  | Raise KeyError => False
  end.
Proof.
  destruct (random_primitive_run object_types scale color w)
    as [[-> ->]|[(Hsome & Hshort & -> & _)|
                 (record & scale0 & scale1 & u & Hin & H0' & H1' & Hcases)]].
  - by left.
  - by right.
  - assert (2 <= length scale)%nat as Hlong.
    { apply lookup_lt_Some in H1'. lia. }
    assert (object_types <> []) as Hsome by (intros ->; by apply elem_of_nil in Hin).
    destruct Hcases as [(c & -> & Hc & Hlen & -> & _)|(r & g & b & Hc & _ & -> & _)].
    + split; [done|]. split; [done|]. by exists c.
    + repeat split; try done. simpl. intros c Hcolor Hne. symmetry. by apply Hc.
Qed.

(** X8.  What [random_primitive] does to [scales] and [colors], for a parent
    that keeps them as attributes.  A call that returns appends the scale it
    drew to [scales] and the colour it returns, as one row, to [colors].  A
    call that raises [ValueError] has already appended a scale, so [scales]
    is then one longer than before while [colors] is unchanged.  A call that
    raises [IndexError] changes neither.  The four static arrays and
    [physics_info] are never touched. *)
Theorem random_primitive_arrays (object_types : list ModelRecord) (scale : list F)
    (color : option (list F)) (w : world) :
  scales_and_colors_are_attributes ->
  let result := random_primitive object_types scale color w in
  let before := super (this w) in
  let after := super (this (snd result)) in
  same_static (this w) (this (snd result))
  /\ match fst result with
     | Ok (_, data) =>
         scales after = scales before ++ [obj_scale data]
         /\ exists r g b,
              obj_color data = [r; g; b] /\ colors after = colors before ++ [(r, g, b)]
     | Raise ValueError =>
         length (scales after) = Datatypes.S (length (scales before))
         /\ colors after = colors before
     | Raise _ => scales after = scales before /\ colors after = colors before
     end.
Proof.
  intros (Hss & Hcc & Hsc & Hcs & Hsu & Hcu). simpl.
  split; [apply random_primitive_static|].
  destruct (random_primitive_run object_types scale color w)
    as [[-> ->]|[(Hsome & Hshort & -> & ->)|
                 (record & scale0 & scale1 & u & Hin & H0' & H1' & Hcases)]].
  - done.
  - simpl. by rewrite Hsu, Hcu.
  - destruct Hcases as [(c & -> & Hc & Hlen & -> & ->)|(r & g & b & Hc & _ & -> & ->)];
      simpl.
    + rewrite Hss, Hcs, Hcu, length_app, Hsu. simpl. split; [lia | done].
    + rewrite Hsc, Hss, Hcc, Hcs, Hsu, Hcu. split; [done|]. by exists r, g, b.
Qed.
End RandomPrimitive.

(** ** [util.py] *)

Section UtilFacts.
Context `{Float64 F}.

End UtilFacts.

(** ** The default physics info *)

Section DefaultPhysicsInfoFacts.
Context `{Float64 F} `{TransformsDataset F}.
Variable MODEL_LIBRARIES : gmap string (string -> ModelRecord).

Implicit Types (items : list (string * physics_info_entry F))
  (info : gmap string (PhysicsInfo.t F)).

(** The loop of the loader: it stops with [KeyError] at the first entry
    whose library is unknown; otherwise every key of the file is bound to
    the entry read last under it, and the other bindings are kept. *)
Lemma load_physics_info_spec items info :
  match load_physics_info MODEL_LIBRARIES items info with
  | Ok info' =>
      (forall key obj, (key, obj) ∈ items ->
                       is_Some (MODEL_LIBRARIES !! entry_library obj))
      /\ forall name,
           match last (filter (fun item => item.1 = name) items) with
           | Some (_, obj) =>
               exists get_record,
                 MODEL_LIBRARIES !! entry_library obj = Some get_record
                 /\ info' !! name
                    = Some (PhysicsInfo.Make (get_record (entry_name obj)) (entry_mass obj)
                              (entry_dynamic_friction obj) (entry_static_friction obj)
                              (entry_bounciness obj))
           | None => info' !! name = info !! name
           end
  | Raise e =>
      e = KeyError
      /\ exists key obj, (key, obj) ∈ items /\ MODEL_LIBRARIES !! entry_library obj = None
  end.
Proof.
  revert info. induction items as [|[key obj] items IH]; intros info; simpl.
  - split; [intros ? ? Hin; by apply elem_of_nil in Hin | done].
  - destruct (MODEL_LIBRARIES !! entry_library obj) as [get_record|] eqn:Hlib.
    + specialize (IH (<[key := PhysicsInfo.Make (get_record (entry_name obj)) (entry_mass obj)
                                (entry_dynamic_friction obj) (entry_static_friction obj)
                                (entry_bounciness obj)]> info)).
      destruct (load_physics_info _ items _) as [info'|e].
      * destruct IH as [Hall Hlookup]. split.
        { intros key' obj' [[= -> ->]|Hin]%elem_of_cons; [by rewrite Hlib | eauto]. }
        intros name. specialize (Hlookup name). rewrite filter_cons. simpl.
        destruct (decide (key = name)) as [->|Hne].
        -- destruct (filter _ items) as [|item rest] eqn:Hfilter.
           ++ simpl in *. rewrite Hlookup, lookup_insert_eq. eauto.
           ++ rewrite last_cons. destruct (last (item :: rest)) as [[? ?]|] eqn:Hlast; [done|].
              by apply last_None in Hlast.
        -- destruct (last (filter _ items)) as [[? ?]|]; [done|].
           by rewrite Hlookup, lookup_insert_ne.
      * destruct IH as [-> (key' & obj' & Hin & Hnone)]. split; [done|].
        exists key', obj'. split; [by right | done].
    + split; [done|]. exists key, obj. split; [by left | done].
Qed.

Lemma last_filter_key items (name : string) :
  match last (filter (fun item => item.1 = name) items) with
  | Some (key, obj) => key = name /\ (name, obj) ∈ items
  | None => name ∉ items.*1
  end.
Proof.
  destruct (last (filter _ items)) as [[key obj]|] eqn:Hlast.
  - apply last_Some_elem_of, list_elem_of_filter in Hlast as [Hkey Hin].
    simpl in Hkey. subst key. done.
  - apply last_None in Hlast. intros (item & Hkey & Hin)%list_elem_of_fmap.
    assert (item ∈ filter (fun item => item.1 = name) items) as Hfiltered
      by (by apply list_elem_of_filter).
    rewrite Hlast in Hfiltered. by apply elem_of_nil in Hfiltered.
Qed.

Lemma last_filter_NoDup items (name : string) obj :
  NoDup items.*1 -> (name, obj) ∈ items ->
  last (filter (fun item => item.1 = name) items) = Some (name, obj).
Proof.
  intros Hnodup Hin.
  pose proof (last_filter_key items name) as Hlast.
  destruct (last (filter _ items)) as [[key obj']|].
  - destruct Hlast as [-> Hin']. f_equal. f_equal.
    apply list_elem_of_lookup in Hin as [i Hi]. apply list_elem_of_lookup in Hin' as [j Hj].
    assert (i = j) as ->.
    { apply (NoDup_lookup _ _ _ name Hnodup); rewrite list_lookup_fmap.
      - by rewrite Hi. - by rewrite Hj. }
    congruence.
  - exfalso. apply Hlast. apply list_elem_of_fmap. by exists (name, obj).
Qed.

Lemma json_object_set_fresh (key : string) (obj : physics_info_entry F) items :
  key ∉ items.*1 -> json_object_set key obj items = items ++ [(key, obj)].
Proof.
  induction items as [|[k v] items IH]; intros Hfresh; simpl; [done|].
  rewrite fmap_cons in Hfresh. apply not_elem_of_cons in Hfresh as [Hne Hfresh].
  rewrite decide_False by done. by rewrite IH.
Qed.

Lemma json_object_set_keys (key : string) (obj : physics_info_entry F) items (k : string) :
  k ∈ (json_object_set key obj items).*1 <-> k = key \/ k ∈ items.*1.
Proof.
  induction items as [|[k' v'] items IH]; simpl.
  - rewrite list_elem_of_singleton. split; [by left | intros [?|Hin]; [done|]].
    by apply elem_of_nil in Hin.
  - destruct (decide (key = k')) as [<-|Hne]; simpl; rewrite !elem_of_cons.
    + tauto.
    + rewrite IH. tauto.
Qed.

Lemma json_object_set_NoDup (key : string) (obj : physics_info_entry F) items :
  NoDup items.*1 -> NoDup (json_object_set key obj items).*1.
Proof.
  induction items as [|[k' v'] items IH]; simpl; intros Hnodup.
  - apply NoDup_singleton.
  - apply NoDup_cons in Hnodup as [Hfresh Hnodup].
    destruct (decide (key = k')) as [<-|Hne]; simpl.
    + by apply NoDup_cons.
    + apply NoDup_cons. split; [|by apply IH].
      rewrite json_object_set_keys. intros [?|?]; by eauto.
Qed.

Lemma json_object_set_elem (key : string) (obj : physics_info_entry F) items
    (k : string) (v : physics_info_entry F) :
  NoDup items.*1 ->
  (k, v) ∈ json_object_set key obj items
  <-> (k = key /\ v = obj) \/ (k <> key /\ (k, v) ∈ items).
Proof.
  induction items as [|[k' v'] items IH]; simpl; intros Hnodup.
  - rewrite list_elem_of_singleton. split.
    + intros [= -> ->]. by left.
    + intros [[-> ->]|[_ Hin]]; [done | by apply elem_of_nil in Hin].
  - apply NoDup_cons in Hnodup as [Hfresh Hnodup].
    destruct (decide (key = k')) as [<-|Hne]; rewrite !elem_of_cons.
    + split.
      * intros [[= -> ->]|Hin]; [by left|].
        right. split; [|by right]. intros ->. apply Hfresh.
        apply list_elem_of_fmap. by exists (key, v).
      * intros [[-> ->]|[Hne [[= -> ->]|Hin]]]; [by left | done | by right].
    + rewrite (IH Hnodup). split.
      * intros [[= -> ->]|[[-> ->]|[Hk Hin]]].
        -- right. split; [done | by left].
        -- by left.
        -- right. split; [done | by right].
      * intros [[-> ->]|[Hk [[= -> ->]|Hin]]].
        -- right. by left.
        -- by left.
        -- right. right. done.
Qed.

Lemma json_load_snoc items (member : string * physics_info_entry F) :
  json_load (items ++ [member])
  = json_object_set member.1 member.2 (json_load items).
Proof. unfold json_load. by rewrite foldl_app. Qed.

(** The dictionary [json.load] builds has each key once, with the value of
    the last member under that key. *)
Lemma json_load_spec items :
  NoDup (json_load items).*1
  /\ forall (k : string) (v : physics_info_entry F),
       (k, v) ∈ json_load items
       <-> last (filter (fun item => item.1 = k) items) = Some (k, v).
Proof.
  induction items as [|[key obj] items [IHnodup IH]] using rev_ind.
  - split; [apply NoDup_nil_2|]. intros k v. split; [|done].
    intros Hin. by apply elem_of_nil in Hin.
  - rewrite json_load_snoc. simpl. split; [by apply json_object_set_NoDup|].
    intros k v. rewrite (json_object_set_elem _ _ _ _ _ IHnodup), filter_app.
    rewrite filter_cons, filter_nil. simpl.
    destruct (decide (key = k)) as [->|Hne].
    + rewrite last_snoc. split.
      * intros [[_ ->]|[? _]]; done.
      * intros [= ->]. by left.
    + rewrite app_nil_r, <- IH. split.
      * intros [[-> _]|[_ ?]]; done.
      * intros Hin. right. split; [congruence | done].
Qed.

Lemma json_load_keys items (k : string) :
  k ∈ (json_load items).*1 <-> k ∈ items.*1.
Proof.
  induction items as [|[key obj] items IH] using rev_ind; [done|].
  rewrite json_load_snoc, json_object_set_keys, fmap_app, elem_of_app, IH. simpl.
  rewrite list_elem_of_singleton. tauto.
Qed.

Lemma json_load_NoDup items : NoDup items.*1 -> json_load items = items.
Proof.
  induction items as [|[key obj] items IH] using rev_ind; [done|].
  rewrite fmap_app. intros Hnodup. apply NoDup_app in Hnodup as (Hitems & Hfresh & _).
  rewrite json_load_snoc, IH by done. simpl. apply json_object_set_fresh.
  intros Hin. apply (Hfresh key Hin). by left.
Qed.

(** X11.  [_get_default_physics_info] returns exactly when, for every key of
    the file, the library of the entry [json.load] keeps under the key (the
    last one, should the file repeat the key) is one of [MODEL_LIBRARIES];
    otherwise it raises [KeyError], and nothing else.  The dictionary
    returned has the keys of the file and no other, and binds a key to the
    record the library gives for the entry's [name], with the entry's
    [mass], [dynamic_friction], [static_friction] and [bounciness], each
    under its own field.  An entry shadowed by a later one under the same
    key is never looked at. *)
Theorem get_default_physics_info_loads (file : list (string * physics_info_entry F)) :
  match _get_default_physics_info MODEL_LIBRARIES file with
  | Ok info =>
      (forall name, is_Some (info !! name) <-> name ∈ file.*1)
      /\ (forall name obj,
            last (filter (fun item => item.1 = name) file) = Some (name, obj) ->
            exists get_record,
              MODEL_LIBRARIES !! entry_library obj = Some get_record
              /\ info !! name
                 = Some (PhysicsInfo.Make (get_record (entry_name obj)) (entry_mass obj)
                           (entry_dynamic_friction obj) (entry_static_friction obj)
                           (entry_bounciness obj)))
  | Raise e =>
      e = KeyError
      /\ exists name obj,
           last (filter (fun item => item.1 = name) file) = Some (name, obj)
           /\ MODEL_LIBRARIES !! entry_library obj = None
  end.
Proof.
  unfold _get_default_physics_info.
  destruct (json_load_spec file) as [Hnodup Hdict].
  pose proof (load_physics_info_spec (json_load file) ∅) as Hspec.
  destruct (load_physics_info MODEL_LIBRARIES (json_load file) ∅) as [info|e].
  - destruct Hspec as [_ Hlookup]. split.
    + intros name. specialize (Hlookup name). rewrite <- json_load_keys.
      pose proof (last_filter_key (json_load file) name) as Hlast.
      destruct (last (filter _ (json_load file))) as [[key obj]|].
      * destruct Hlookup as (get_record & _ & ->). destruct Hlast as [-> Hin].
        split; [|done]. intros _. apply list_elem_of_fmap. by exists (name, obj).
      * rewrite Hlookup, lookup_empty. split; [by intros [? ?] | done].
    + intros name obj Hlast. apply Hdict in Hlast.
      specialize (Hlookup name).
      by rewrite (last_filter_NoDup _ name obj Hnodup Hlast) in Hlookup.
  - destruct Hspec as [-> (key & obj & Hin & Hnone)]. split; [done|].
    exists key, obj. split; [by apply Hdict | done].
Qed.

(** X12.  From the file to the commands.  With the registry loaded from a
    file whose keys are distinct, [add_physics_object_default] for a key of
    the file is [add_physics_object] for the record the entry's library
    gives for the entry's [name] and for the entry's mass, dynamic friction,
    static friction and bounciness; for a name that is no key of the file it
    raises [KeyError] and leaves the recorder as it was. *)
Theorem default_physics_info_round_trip (_data : list (string * physics_info_entry F))
    (info : gmap string (PhysicsInfo.t F)) (name : string) (obj : physics_info_entry F)
    (position rotation : vector3 F) (o_id : option Z) (self : RigidbodiesDataset) :
  _get_default_physics_info MODEL_LIBRARIES _data = Ok info ->
  NoDup _data.*1 ->
  (name, obj) ∈ _data ->
  exists get_record,
    MODEL_LIBRARIES !! entry_library obj = Some get_record
    /\ add_physics_object_default info name position rotation o_id self
       = add_physics_object (get_record (entry_name obj)) position rotation
           (entry_mass obj) (entry_dynamic_friction obj) (entry_static_friction obj)
           (entry_bounciness obj) o_id self
    /\ forall other,
         other ∉ _data.*1 ->
         add_physics_object_default info other position rotation o_id self
         = (Raise KeyError, self).
Proof.
  intros Hload Hnodup Hin. unfold _get_default_physics_info in Hload.
  rewrite (json_load_NoDup _data Hnodup) in Hload.
  pose proof (load_physics_info_spec _data ∅) as Hspec. rewrite Hload in Hspec.
  destruct Hspec as [_ Hlookup].
  pose proof (Hlookup name) as Hname.
  rewrite (last_filter_NoDup _data name obj Hnodup Hin) in Hname.
  destruct Hname as (get_record & Hlib & Hname).
  exists get_record. split; [done|]. split.
  - unfold add_physics_object_default. by rewrite Hname.
  - intros other Hother. specialize (Hlookup other).
    pose proof (last_filter_key _data other) as Hlast.
    destruct (last (filter _ _data)) as [[key obj']|].
    + destruct Hlast as [_ Hin']. exfalso. apply Hother.
      apply list_elem_of_fmap. by exists (other, obj').
    + unfold add_physics_object_default. by rewrite Hlookup, lookup_empty.
Qed.
End DefaultPhysicsInfoFacts.


(** ** The static datasets *)

Section StaticData.
Context `{Float64 F} `{TransformsDataset F}.
Variable PHYSICS_INFO : gmap string (PhysicsInfo.t F).

(** X15.  What [_write_static_data] writes at the end of an episode.  From a
    new recorder and after any sequence of calls of its methods, it adds
    four datasets, [mass], [static_friction], [dynamic_friction] and
    [bounciness] in this order, each holding under its own name the
    corresponding scalar of the objects added since the last
    [clear_static_data], one entry per object and in the order of the
    calls. *)
Theorem write_static_data_rows (s : transforms_state) (g : random.state)
    (calls : list call) :
  let self' := this (run PHYSICS_INFO (World (__init__ s) g) calls) in
  let rows := added_since_clear PHYSICS_INFO [] calls in
  _write_static_data self'
  = [("mass", rows.*1.*1.*1);
     ("static_friction", rows.*1.*1.*2);
     ("dynamic_friction", rows.*1.*2);
     ("bounciness", rows.*2)]
  /\ Forall (fun dataset => length dataset.2 = length rows) (_write_static_data self').
Proof.
  simpl.
  destruct (run_static PHYSICS_INFO (World (__init__ s) g) calls [])
    as (Hm & Hs & Hd & Hb); try reflexivity.
  simpl in *. unfold _write_static_data. rewrite Hm, Hs, Hd, Hb.
  split; [done|].
  repeat (apply Forall_cons_2; [simpl; by rewrite !length_fmap|]). apply Forall_nil_2.
Qed.
End StaticData.

(** ** More concrete runs *)

Section MoreRuns.
Import Example.

Lemma physics_info_keys_grow_witness :
  let w := World (recorder_with (F:=float) [of_int 1]) (draws_of []) in
  let calls :=
    [call_clear_static_data;
     call_add_physics_object_default "chair" origin origin (Some 7%Z)] in
  NoDup (PyDict.keys (physics_info (this w)))
  /\ NoDup (PyDict.keys (physics_info (this (run registry w calls))))
  /\ 1%Z ∈ PyDict.keys (physics_info (this (run registry w calls))).
Proof.
  simpl.
  assert (NoDup (PyDict.keys
                   (physics_info
                      (this (World (recorder_with (F:=float) [of_int 1]) (draws_of []))))))
    as Hnodup by apply NoDup_singleton.
  destruct (physics_info_keys_grow registry _
              [call_clear_static_data;
               call_add_physics_object_default "chair" origin origin (Some 7%Z)] Hnodup)
    as (Hafter & Hkept & _).
  split; [exact Hnodup|]. split; [exact Hafter|]. apply Hkept. by left.
Defined.

Lemma get_falling_commands_no_repeat_witness :
  exists out g',
    NoDup (PyDict.keys (physics_info (recorder_with (F:=float) [of_int 1; of_int 2])))
    /\ get_falling_commands (of_int 3) (recorder_with (F:=float) [of_int 1; of_int 2])
         (draws_of [1; 0; 1]%nat) = (Ok out, g')
    /\ NoDup (forced_ids out)
    /\ (length (forced_ids out) <= 8)%nat
    /\ (forall o, o ∈ forced_ids out ->
                  is_below (recorder_with (F:=float) [of_int 1; of_int 2]) (of_int 3) o
                  = true).
Proof.
  assert (NoDup (PyDict.keys
                   (physics_info (recorder_with (F:=float) [of_int 1; of_int 2]))))
    as Hnodup.
  { change (NoDup [1%Z; 2%Z]). apply NoDup_cons. split; [|apply NoDup_singleton].
    intros Hin. apply list_elem_of_singleton in Hin. discriminate. }
  eexists _, _. split; [exact Hnodup|].
  assert (get_falling_commands (of_int 3) (recorder_with (F:=float) [of_int 1; of_int 2])
            (draws_of [1; 0; 1]%nat)
          = (Ok _, _)) as Hrun by (vm_compute; reflexivity).
  split; [exact Hrun|].
  exact (get_falling_commands_no_repeat _ _ _ _ _ Hnodup Hrun).
Defined.

Lemma write_frame_velocities_witness :
  let moving : array3 float := (of_int 1, of_int 2, of_int 3) in
  let ri := [Rigidbodies.Row 2%Z moving still true; Rigidbodies.Row 1%Z still moving true] in
  let resp := [rigi ri; frame_marker] in
  let self := recorder_tracking (F:=float) [1%Z; 2%Z] [(1%Z, of_int 0); (2%Z, of_int 0)] in
  exists datasets tr done,
    fst (_write_frame resp 0 self) = Ok (datasets, tr, done)
    /\ length (objs_velocities datasets) = 2%nat
    /\ objs_velocities datasets !! 1%nat = Some (Some moving)
    /\ objs_angular_velocities datasets !! 1%nat = Some (Some still).
Proof.
  simpl.
  set (moving := (of_int 1, of_int 2, of_int 3) : array3 float).
  set (ri := [Rigidbodies.Row 2%Z moving still true; Rigidbodies.Row 1%Z still moving true]).
  set (resp := [rigi ri; frame_marker]).
  set (self := recorder_tracking (F:=float) [1%Z; 2%Z] [(1%Z, of_int 0); (2%Z, of_int 0)]).
  eexists _, _, _. split; [reflexivity|].
  destruct (write_frame_velocities resp 0 self _ _ _ eq_refl) as (Hlen & _ & _ & Hrows).
  split; [exact Hlen|].
  destruct (Hrows [] ri [] eq_refl) with (i := 1%nat) (o := 2%Z)
    as (row & Hrow & Hvelocity & Hangular).
  - intros ri' Hin. by apply elem_of_nil in Hin.
  - reflexivity.
  - injection Hrow as <-. split; [exact Hvelocity | exact Hangular].
Defined.

Lemma random_primitive_arrays_witness :
  let w := World (__init__ (F:=float) fresh_parent) (draws_of []) in
  let result :=
    random_primitive (F:=float) ["cube" : ModelRecord] [lit 2 10; lit 3 10]
      (Some [of_int 1; of_int 0]) w in
  scales_and_colors_are_attributes (F:=float)
  /\ fst result = Raise ValueError
  /\ length (scales (super (this (snd result))))
     = Datatypes.S (length (scales (super (this w))))
  /\ colors (super (this (snd result))) = colors (super (this w)).
Proof.
  simpl.
  assert (scales_and_colors_are_attributes (F:=float)) as Hattributes
    by (repeat split; reflexivity).
  split; [exact Hattributes|]. split; [reflexivity|].
  exact (proj2 (random_primitive_arrays (F:=float) ["cube" : ModelRecord]
                  [lit 2 10; lit 3 10]
                  (Some [of_int 1; of_int 0])
                  (World (__init__ (F:=float) fresh_parent) (draws_of [])) Hattributes)).
Defined.

Lemma default_physics_info_round_trip_witness :
  let libraries : gmap string (string -> ModelRecord (F:=float)) := {[ "lib0" := fun name => name ]} in
  let entry : physics_info_entry float :=
    PhysicsInfoEntry "lib0" "chair_01" (of_int 5) (lit 2 10) (lit 3 10) (lit 4 10) in
  _get_default_physics_info libraries [("chair", entry)] = Ok registry
  /\ NoDup [("chair", entry)].*1
  /\ ("chair", entry) ∈ [("chair", entry)]
  /\ exists get_record,
       libraries !! "lib0" = Some get_record
       /\ add_physics_object_default (F:=float) registry "chair" origin origin None
            (__init__ fresh_parent)
          = add_physics_object (F:=float) (get_record "chair_01") origin origin
              (of_int 5) (lit 3 10) (lit 4 10) (lit 2 10) None (__init__ fresh_parent).
Proof.
  simpl.
  set (libraries := {[ "lib0" := fun name => name ]} : gmap string (string -> ModelRecord (F:=float))).
  set (entry := PhysicsInfoEntry (F:=float) "lib0" "chair_01" (of_int 5) (lit 2 10)
                  (lit 3 10) (lit 4 10)).
  assert (_get_default_physics_info libraries [("chair", entry)] = Ok registry) as Hload
    by reflexivity.
  assert (NoDup [("chair", entry)].*1) as Hnodup by apply NoDup_singleton.
  assert (("chair", entry) ∈ [("chair", entry)]) as Hin by (by left).
  split; [exact Hload|]. split; [exact Hnodup|]. split; [exact Hin|].
  destruct (@default_physics_info_round_trip float transforms_dataset libraries
              [("chair", entry)] registry "chair" entry origin origin None
              (__init__ (H0:=transforms_dataset) fresh_parent) Hload Hnodup Hin)
    as (get_record & Hlibrary & Hsame & _).
  exists get_record. split; [exact Hlibrary | exact Hsame].
Defined.

End MoreRuns.
